(** * Speech-quality metric glue: installer and DNSMOS wrapper

    A shallow embedding of [install_python_deps.py] and of
    [python_modules/dnsmos_wrapper/__init__.py], with the properties the
    specification states about them.

    Everything outside the repository (the package managers, soundfile,
    librosa, the temporary-file facility and the DNSMOS scorer) is a field of
    a record describing the host, so that every statement holds for any
    behaviour of these collaborators. *)

From Stdlib Require Import ZArith QArith Lia.
From stdpp Require Import base option strings pretty list gmap.

Local Open Scope string_scope.
Local Open Scope list_scope.
Local Open Scope Z_scope.

(* ===================================================================== *)
(** * The dependency installer, [install_python_deps.py]                  *)
(* ===================================================================== *)

Module Installer.

(** ** Output *)

(** The tags of [print_status]; the colour escape codes are not kept. *)
Inductive status := INFO | SUCCESS | WARNING | ERROR.

(** One line on standard output: a tagged [print_status] line or a bare
    [print]. *)
Inductive line :=
| Status (tag : status) (message : string)
| Plain (message : string).

(** ** The host *)

(** What [subprocess.run(cmd, check=True, ...)] does. *)
Inductive run_outcome :=
| Completed
| CalledProcessError (returncode : Z)
| FileNotFoundError.

Record Host := {
  version_info : Z * Z;                (* sys.version_info: major, minor *)
  executable : string;                 (* sys.executable *)
  which : string -> bool;              (* is the program on the PATH *)
  returncode : list string -> Z;       (* exit status of a command *)
  error_text : list string -> string;  (* str(e) of its CalledProcessError *)
  stderr_text : list string -> string; (* its captured stderr, decoded *)
  dnsmos_dir_exists : bool;            (* python_modules/DNSMOS *)
  dnsmos_git_exists : bool;            (* python_modules/DNSMOS/.git *)
  import_error : option string         (* ImportError of the import test *)
}.

Record Args := { conda : bool; force : bool; verbose : bool }.

(** ** Process state and control *)

Record state := {
  stdout : list line;           (* lines printed, oldest first *)
  runs : list (list string);    (* commands given to subprocess.run *)
  written : list string         (* files written *)
}.

Definition initial : state := {| stdout := []; runs := []; written := [] |}.

(** A computation returns, leaves through [sys.exit], or dies on an
    exception nobody catches. *)
Inductive outcome (A : Type) :=
| Return (a : A)
| Exit (code : Z)
| Uncaught (exception : string).
Arguments Return {A} a.
Arguments Exit {A} code.
Arguments Uncaught {A} exception.

Definition M (A : Type) : Type := state -> outcome A * state.

Definition ret {A} (a : A) : M A := fun s => (Return a, s).

Definition bind {A B} (m : M A) (k : A -> M B) : M B :=
  fun s =>
    match m s with
    | (Return a, s') => k a s'
    | (Exit c, s') => (Exit c, s')
    | (Uncaught e, s') => (Uncaught e, s')
    end.

Notation "x <- m ;; k" := (bind m (fun x => k))
  (at level 100, m at next level, right associativity).
Notation "m ;;; k" := (bind m (fun _ => k))
  (at level 100, right associativity).

Definition sys_exit {A} (code : Z) : M A := fun s => (Exit code, s).

Definition print_line (l : line) : M unit :=
  fun s => (Return tt,
            {| stdout := stdout s ++ [l]; runs := runs s; written := written s |}).

Definition print_status (message : string) (tag : status) : M unit :=
  print_line (Status tag message).

Definition print (message : string) : M unit := print_line (Plain message).

Definition write_file (path : string) : M unit :=
  fun s => (Return tt,
            {| stdout := stdout s; runs := runs s; written := written s ++ [path] |}).

(** [subprocess.run(cmd, check=True)]: the program must be found, and a
    non-zero exit status is an error. *)
Definition subprocess_run (h : Host) (cmd : list string) : M run_outcome :=
  fun s =>
    let s' := {| stdout := stdout s; runs := runs s ++ [cmd]; written := written s |} in
    match cmd with
    | [] => (Uncaught "IndexError", s)
    | prog :: _ =>
        if which h prog
        then if Z.eqb (returncode h cmd) 0
             then (Return Completed, s')
             else (Return (CalledProcessError (returncode h cmd)), s')
        else (Return FileNotFoundError, s')
    end.

(** A [for] loop over a list, for its effects. *)
Fixpoint for_each {A B} (l : list A) (body : A -> M B) : M unit :=
  match l with
  | [] => ret tt
  | x :: l' => body x ;;; for_each l' body
  end.

(** ** The functions of the script *)

(** [sys.version_info < (3, 7)]. *)
Definition version_too_old (v : Z * Z) : bool :=
  Z.ltb (fst v) 3 || (Z.eqb (fst v) 3 && Z.ltb (snd v) 7).

Definition check_python_version (h : Host) : M unit :=
  if version_too_old (version_info h)
  then print_status "Python 3.7+ is required" ERROR ;;; sys_exit 1
  else print_status ("Python " +:+ pretty (fst (version_info h)) +:+ "."
                       +:+ pretty (snd (version_info h)) +:+ " detected") SUCCESS.

Definition pip_version_cmd (h : Host) : list string :=
  [executable h; "-m"; "pip"; "--version"].

Definition conda_version_cmd : list string := ["conda"; "--version"].

Definition check_pip (h : Host) : M bool :=
  r <- subprocess_run h (pip_version_cmd h) ;;
  match r with
  | Completed => ret true
  | CalledProcessError _ | FileNotFoundError => ret false
  end.

Definition check_conda (h : Host) : M bool :=
  r <- subprocess_run h conda_version_cmd ;;
  match r with
  | Completed => ret true
  | CalledProcessError _ | FileNotFoundError => ret false
  end.

(** The command line [install_package] builds. *)
Definition install_cmd (h : Host) (package : string) (use_conda force : bool)
  : list string :=
  if use_conda
  then ["conda"; "install"; "-y"; "-c"; "conda-forge"; package]
  else
    let cmd := [executable h; "-m"; "pip"; "install"] in
    let cmd := if force then (cmd ++ ["--force-reinstall"])%list else cmd in
    (cmd ++ [package])%list.

Definition install_package (h : Host) (package : string)
    (use_conda force verbose : bool) : M bool :=
  let cmd := install_cmd h package use_conda force in
  (if verbose
   then print_status ("Running: " +:+ String.concat " " cmd) INFO
   else ret tt) ;;;
  r <- subprocess_run h cmd ;;
  match r with
  | Completed =>
      print_status ("Successfully installed " +:+ package) SUCCESS ;;;
      ret true
  | CalledProcessError _ =>
      print_status ("Failed to install " +:+ package +:+ ": " +:+ error_text h cmd)
                   ERROR ;;;
      (if negb verbose && negb (String.eqb (stderr_text h cmd) "")
       then print ("Error details: " +:+ stderr_text h cmd)
       else ret tt) ;;;
      ret false
  | FileNotFoundError => fun s => (Uncaught "FileNotFoundError", s)
  end.

Definition check_dnsmos_submodule (h : Host) : M bool :=
  print_status "Checking DNSMOS submodule..." INFO ;;;
  if negb (dnsmos_dir_exists h)
  then
    print_status "DNSMOS submodule not found. Please run: ./setup_submodules.sh"
                 ERROR ;;;
    ret false
  else if negb (dnsmos_git_exists h)
  then
    print_status "DNSMOS directory exists but is not a git submodule" WARNING ;;;
    print_status "Please run: git submodule update --init --recursive" INFO ;;;
    ret false
  else
    print_status "DNSMOS submodule is properly set up" SUCCESS ;;;
    ret true.

(** Writes the fixed wrapper text to [python_modules/dnsmos_wrapper.py]. *)
Definition create_dnsmos_wrapper : M unit :=
  write_file "python_modules/dnsmos_wrapper.py" ;;;
  print_status "DNSMOS wrapper created" SUCCESS.

Definition core_packages : list string :=
  ["numpy"; "scipy"; "librosa"; "soundfile"; "pandas"; "tqdm"].

Definition metrics_packages : list string := ["pypesq"; "onnxruntime"].

Definition main (h : Host) (args : Args) : M unit :=
  print_status "HADatasets Python Dependencies Installation" INFO ;;;
  print_status "==================================================" INFO ;;;
  check_python_version h ;;;
  (if conda args
   then
     found <- check_conda h ;;
     if negb found
     then
       print_status "Conda not found. Please install conda or use pip." ERROR ;;;
       sys_exit 1
     else print_status "Using conda for package installation" INFO
   else
     found <- check_pip h ;;
     if negb found
     then
       print_status "Pip not found. Please install pip or use conda." ERROR ;;;
       sys_exit 1
     else print_status "Using pip for package installation" INFO) ;;;
  print_status "Installing core dependencies..." INFO ;;;
  for_each core_packages
    (fun package => install_package h package (conda args) (force args) (verbose args)) ;;;
  print_status "Installing metrics dependencies..." INFO ;;;
  for_each metrics_packages
    (fun package => install_package h package (conda args) (force args) (verbose args)) ;;;
  ok <- check_dnsmos_submodule h ;;
  (if ok then create_dnsmos_wrapper else ret tt) ;;;
  print_status "Installation completed!" SUCCESS ;;;
  print_status "You can now use the HADatasets metrics module." INFO ;;;
  print_status "Testing installation..." INFO ;;;
  match import_error h with
  | None => print_status "All core packages imported successfully" SUCCESS
  | Some e =>
      print_status ("Import test failed: " +:+ e) WARNING ;;;
      print_status "Some packages may not be properly installed" WARNING
  end.

(** The exit status of the process that runs [main]: 0 when [main]
    returns, the argument of [sys.exit], 1 for a traceback. *)
Definition exit_code {A} (r : outcome A * state) : Z :=
  match fst r with
  | Return _ => 0
  | Exit c => c
  | Uncaught _ => 1
  end.

Definition run_main (h : Host) (args : Args) : outcome unit * state :=
  main h args initial.

(** The probe of the package manager that [args] select, and its
    answer. *)
Definition check_selected (h : Host) (args : Args) : M bool :=
  if conda args then check_conda h else check_pip h.

Definition manager_found (h : Host) (args : Args) : bool :=
  match fst (check_selected h args initial) with
  | Return found => found
  | _ => false
  end.

(** The command of that probe. *)
Definition probe (h : Host) (args : Args) : list string :=
  if conda args then conda_version_cmd else pip_version_cmd h.

(** The program [install_package] starts. *)
Definition install_prog (h : Host) (use_conda : bool) : string :=
  if use_conda then "conda" else executable h.

(** The packages of [main], in the order it installs them. *)
Definition packages : list string := core_packages ++ metrics_packages.

(** The line [install_package] prints when a package fails. *)
Definition failure_line (h : Host) (args : Args) (package : string) : line :=
  let cmd := install_cmd h package (conda args) (force args) in
  Status ERROR ("Failed to install " +:+ package +:+ ": " +:+ error_text h cmd).

End Installer.

(* ===================================================================== *)
(** * The scoring wrapper, [python_modules/dnsmos_wrapper/__init__.py]    *)
(* ===================================================================== *)

(** The arithmetic of the samples.  The wrapper only adds samples and
    divides a sum by a count (inside [np.mean]) and converts scores with
    [float]; the operations are kept abstract, so that the statements hold
    for IEEE doubles as for any other interpretation. *)
Class FloatOps (F : Type) := {
  fzero : F;
  fadd : F -> F -> F;
  fdiv : F -> F -> F;
  fof_nat : nat -> F;              (* an element count as a float *)
  fof_Z : Z -> option F;           (* float(int); None is OverflowError *)
  fof_string : string -> option F  (* float(str); None is ValueError *)
}.

Module Wrapper.

(** Python exceptions that are instances of [Exception], with their
    [str]. *)
Inductive exn := Exception (text : string).

Definition str (e : exn) : string := match e with Exception t => t end.

Inductive result (A : Type) :=
| Ok (a : A)
| Raise (e : exn).
Arguments Ok {A} a.
Arguments Raise {A} e.

Section Model.

Context {F : Type} `{FloatOps F}.

(** ** Data *)

(** A numpy array of samples: one-dimensional, or two-dimensional with
    one row per frame and one column per channel (the layout of
    [sf.read]).  The test [len(audio.shape) > 1] of the methods is the
    match on the constructor. *)
Inductive ndarray :=
| Mono (samples : list F)
| Multi (frames : list (list F)).

(** A file on disk: a sound file holding the samples and the sample
    rate it was written with, or anything else. *)
Inductive file :=
| Wav (data : ndarray) (samplerate : Z)
| Blob.

(** A Python value in the mapping the scorer returns. *)
Inductive pyval :=
| PyFloat (x : F)
| PyInt (n : Z)
| PyStr (s : string)
| PyNone.

(** The scorer object [ComputeScore(primary_model_path, p808_model_path)];
    [scorer_id] tells instances apart. *)
Record ComputeScore := {
  scorer_id : nat;
  primary_model_path : string;
  p808_model_path : string
}.

Record DNSMOSWrapper := { compute_score : ComputeScore }.

(** The argument of [dnsmos]: a [str] or an array. *)
Inductive input :=
| Path (audio_path : string)
| Array (audio_array : ndarray).

(** ** The host *)

Record Host := {
  (* the directory that holds dnsmos_wrapper/ and DNSMOS/ *)
  parent_dir : string;
  (* ImportError of [from dnsmos_local import ComputeScore] *)
  import_error : option string;
  (* ComputeScore.__init__ on the two model paths *)
  load_models : string -> string -> result unit;
  (* ComputeScore.__call__ of a scorer built from the two model paths,
     on the file found at the path it is given *)
  score_clip : string -> string -> option file -> Z -> bool
               -> result (gmap string pyval);
  (* librosa.resample(audio, orig_sr, target_sr) *)
  resample : list F -> Z -> Z -> result (list F);
  (* the name tempfile.NamedTemporaryFile(suffix='.wav') picks *)
  mktemp : gmap string file -> result string;
  (* the error of sf.write(path, data, samplerate), if any *)
  write_error : string -> list F -> Z -> option exn
}.

(** ** Process state *)

(** Calls to the collaborators, in order. *)
Inductive event :=
| Construct (id : nat) (primary p808 : string)
| Resample (audio : list F) (orig_sr target_sr : Z)
| Score (id : nat) (path : string) (clip : option file)
        (sampling_rate : Z) (is_personalized_MOS : bool).

Record state := {
  fs : gmap string file;                 (* the files on disk *)
  stdout : list string;                  (* lines printed *)
  trace : list event;                    (* calls made so far *)
  next_id : nat;                         (* objects built so far *)
  dnsmos_wrapper : option DNSMOSWrapper  (* the module global *)
}.

Definition set_fs (f : gmap string file -> gmap string file) (s : state) : state :=
  {| fs := f (fs s); stdout := stdout s; trace := trace s;
     next_id := next_id s; dnsmos_wrapper := dnsmos_wrapper s |}.

Definition log (e : event) (s : state) : state :=
  {| fs := fs s; stdout := stdout s; trace := trace s ++ [e];
     next_id := next_id s; dnsmos_wrapper := dnsmos_wrapper s |}.

(** ** Computations that may raise *)

Definition M (A : Type) : Type := state -> result A * state.

Definition ret {A} (a : A) : M A := fun s => (Ok a, s).

(** A call that only computes. *)
Definition lift {A} (r : result A) : M A := fun s => (r, s).

Definition bind {A B} (m : M A) (k : A -> M B) : M B :=
  fun s =>
    match m s with
    | (Ok a, s') => k a s'
    | (Raise e, s') => (Raise e, s')
    end.

(** [try: body  except Exception as e: handler(e)]. *)
Definition try_except {A} (body : M A) (handler : exn -> M A) : M A :=
  fun s =>
    match body s with
    | (Ok a, s') => (Ok a, s')
    | (Raise e, s') => handler e s'
    end.

Notation "x <- m ;; k" := (bind m (fun x => k))
  (at level 100, m at next level, right associativity).
Notation "m ;;; k" := (bind m (fun _ => k))
  (at level 100, right associativity).

Definition say (text : string) (s : state) : state :=
  {| fs := fs s; stdout := stdout s ++ [text]; trace := trace s;
     next_id := next_id s; dnsmos_wrapper := dnsmos_wrapper s |}.

Definition print (text : string) : M unit := fun s => (Ok tt, say text s).

(** ** The library calls *)

Variable host : Host.

(** [sf.read(path)]: the samples and the native sample rate. *)
Definition sf_read (path : string) : M (ndarray * Z) :=
  fun s =>
    match fs s !! path with
    | Some (Wav data sr) => (Ok (data, sr), s)
    | Some Blob =>
        (Raise (Exception ("Error opening '" +:+ path +:+ "': Format not recognised.")), s)
    | None =>
        (Raise (Exception ("Error opening '" +:+ path +:+ "': System error.")), s)
    end.

(** [np.add.reduce] over one row: the samples added up, here from the
    left.  In which order numpy adds the channels of a frame matters for
    rounding only, which this development does not speak about. *)
Definition np_sum (row : list F) : F :=
  match row with
  | [] => fzero
  | x :: rest => fold_left fadd rest x
  end.

(** [np.mean(audio, axis=1)]: for each frame, the sum over its channels
    divided by their number. *)
Definition np_mean_axis1 (frames : list (list F)) : list F :=
  map (fun row => fdiv (np_sum row) (fof_nat (length row))) frames.

(** [librosa.resample(audio, orig_sr=orig_sr, target_sr=target_sr)]. *)
Definition librosa_resample (audio : list F) (orig_sr target_sr : Z) : M (list F) :=
  fun s => (resample host audio orig_sr target_sr,
            log (Resample audio orig_sr target_sr) s).

(** [tempfile.NamedTemporaryFile(suffix='.wav', delete=False)]: an empty
    file is created under the name picked; leaving the [with] block
    closes it and, with [delete=False], keeps it. *)
Definition NamedTemporaryFile : M string :=
  fun s =>
    match mktemp host (fs s) with
    | Ok name => (Ok name, set_fs (insert name Blob) s)
    | Raise e => (Raise e, s)
    end.

(** [sf.write(path, data, samplerate)] of one-dimensional data. *)
Definition sf_write (path : string) (data : list F) (samplerate : Z) : M unit :=
  fun s =>
    match write_error host path data samplerate with
    | Some e => (Raise e, s)
    | None => (Ok tt, set_fs (insert path (Wav (Mono data) samplerate)) s)
    end.

(** [os.unlink(path)]. *)
Definition os_unlink (path : string) : M unit :=
  fun s =>
    match fs s !! path with
    | Some _ => (Ok tt, set_fs (delete path) s)
    | None =>
        (Raise (Exception ("[Errno 2] No such file or directory: '" +:+ path +:+ "'")), s)
    end.

(** [scorer(path, sampling_rate, is_personalized_MOS)]: the scorer reads
    the file at [path]. *)
Definition call_scorer (scorer : ComputeScore) (path : string)
    (sampling_rate : Z) (is_personalized_MOS : bool) : M (gmap string pyval) :=
  fun s =>
    (score_clip host (primary_model_path scorer) (p808_model_path scorer)
                (fs s !! path) sampling_rate is_personalized_MOS,
     log (Score (scorer_id scorer) path (fs s !! path)
                sampling_rate is_personalized_MOS) s).

(** [clip_dict[key]]. *)
Definition getitem (clip_dict : gmap string pyval) (key : string) : result pyval :=
  match clip_dict !! key with
  | Some v => Ok v
  | None => Raise (Exception ("'" +:+ key +:+ "'"))
  end.

(** [float(v)]. *)
Definition py_float (v : pyval) : result F :=
  match v with
  | PyFloat x => Ok x
  | PyInt n =>
      match fof_Z n with
      | Some x => Ok x
      | None => Raise (Exception "int too large to convert to float")
      end
  | PyStr t =>
      match fof_string t with
      | Some x => Ok x
      | None => Raise (Exception ("could not convert string to float: '" +:+ t +:+ "'"))
      end
  | PyNone =>
      Raise (Exception "float() argument must be a string or a real number, not 'NoneType'")
  end.

(** [float(clip_dict[key])]. *)
Definition float_item (clip_dict : gmap string pyval) (key : string) : M F :=
  v <- lift (getitem clip_dict key) ;;
  lift (py_float v).

(** [ComputeScore(primary_model_path, p808_model_path)]. *)
Definition new_ComputeScore (primary p808 : string) : M ComputeScore :=
  fun s =>
    match load_models host primary p808 with
    | Ok _ =>
        (Ok {| scorer_id := next_id s;
               primary_model_path := primary;
               p808_model_path := p808 |},
         {| fs := fs s; stdout := stdout s;
            trace := trace s ++ [Construct (next_id s) primary p808];
            next_id := S (next_id s); dnsmos_wrapper := dnsmos_wrapper s |})
    | Raise e => (Raise e, s)
    end.

(** ** The class [DNSMOSWrapper] *)

(** [DNSMOSWrapper.__init__]. *)
Definition DNSMOSWrapper_init : M DNSMOSWrapper :=
  let dnsmos_models_dir := parent_dir host +:+ "/DNSMOS/DNSMOS/DNSMOS" in
  let primary_model_path := dnsmos_models_dir +:+ "/sig_bak_ovr.onnx" in
  let p808_model_path := dnsmos_models_dir +:+ "/model_v8.onnx" in
  scorer <- new_ComputeScore primary_model_path p808_model_path ;;
  ret {| compute_score := scorer |}.

(** The dictionary [{'SIG': sig, 'BAK': bak, 'OVRL': ovrl}]. *)
Definition scores_dict (sig bak ovrl : F) : gmap string F :=
  <["OVRL" := ovrl]> (<["BAK" := bak]> (<["SIG" := sig]> ∅)).

(** [DNSMOSWrapper.calculate_dnsmos]. *)
Definition calculate_dnsmos (self : DNSMOSWrapper) (audio_path : string)
  : M (option (gmap string F)) :=
  try_except
    (decoded <- sf_read audio_path ;;
     let '(audio, sr) := decoded in
     audio <- ret (match audio with
                   | Multi frames => np_mean_axis1 frames
                   | Mono samples => samples
                   end) ;;
     audio <- (if bool_decide (sr ≠ 16000)
               then librosa_resample audio sr 16000
               else ret audio) ;;
     tmp_file <- NamedTemporaryFile ;;
     sf_write tmp_file audio 16000 ;;;
     clip_dict <- call_scorer (compute_score self) tmp_file 16000 false ;;
     os_unlink tmp_file ;;;
     sig <- float_item clip_dict "SIG" ;;
     bak <- float_item clip_dict "BAK" ;;
     ovrl <- float_item clip_dict "OVRL" ;;
     ret (Some (scores_dict sig bak ovrl)))
    (fun e =>
       print ("Error calculating DNSMOS: " +:+ str e) ;;;
       ret None).

(** [DNSMOSWrapper.calculate_dnsmos_from_array]. *)
Definition calculate_dnsmos_from_array (self : DNSMOSWrapper)
    (audio_array : ndarray) (sample_rate : Z) : M (option (gmap string F)) :=
  try_except
    (audio_array <- ret (match audio_array with
                         | Multi frames => np_mean_axis1 frames
                         | Mono samples => samples
                         end) ;;
     audio_array <- (if bool_decide (sample_rate ≠ 16000)
                     then librosa_resample audio_array sample_rate 16000
                     else ret audio_array) ;;
     tmp_file <- NamedTemporaryFile ;;
     sf_write tmp_file audio_array 16000 ;;;
     clip_dict <- call_scorer (compute_score self) tmp_file 16000 false ;;
     os_unlink tmp_file ;;;
     sig <- float_item clip_dict "SIG" ;;
     bak <- float_item clip_dict "BAK" ;;
     ovrl <- float_item clip_dict "OVRL" ;;
     ret (Some (scores_dict sig bak ovrl)))
    (fun e =>
       print ("Error calculating DNSMOS: " +:+ str e) ;;;
       ret None).

(** ** The stages of a method body

    Both methods run the same four stages inside their [try]: decode
    (the file form only), normalize, delegate, extract. *)

(** The samples after the conversion to mono. *)
Definition to_mono (audio : ndarray) : list F :=
  match audio with
  | Multi frames => np_mean_axis1 frames
  | Mono samples => samples
  end.

(** Conversion to mono, then resampling when the rate is not 16000. *)
Definition normalize (audio : ndarray) (sr : Z) : M (list F) :=
  if bool_decide (sr ≠ 16000)
  then librosa_resample (to_mono audio) sr 16000
  else ret (to_mono audio).

(** The buffer normalization yields, or the error of the resampler. *)
Definition normal_form (audio : ndarray) (sr : Z) : result (list F) :=
  if bool_decide (sr ≠ 16000)
  then resample host (to_mono audio) sr 16000
  else Ok (to_mono audio).

(** The calls normalization makes. *)
Definition normalize_events (audio : ndarray) (sr : Z) : list event :=
  if bool_decide (sr ≠ 16000)
  then [Resample (to_mono audio) sr 16000]
  else [].

(** The [with] block: the scorer runs on a temporary file. *)
Definition delegate (self : DNSMOSWrapper) (audio : list F)
  : M (gmap string pyval) :=
  tmp_file <- NamedTemporaryFile ;;
  sf_write tmp_file audio 16000 ;;;
  clip_dict <- call_scorer (compute_score self) tmp_file 16000 false ;;
  os_unlink tmp_file ;;;
  ret clip_dict.

(** The file [sf.write] leaves for the scorer. *)
Definition clip_of (audio : list F) : file := Wav (Mono audio) 16000.

(** What the scorer of [self] answers on that file. *)
Definition answer (self : DNSMOSWrapper) (audio : list F)
  : result (gmap string pyval) :=
  score_clip host (primary_model_path (compute_score self))
             (p808_model_path (compute_score self))
             (Some (clip_of audio)) 16000 false.

(** The invocation of the scorer of [self] on the temporary file [tmp]
    holding [audio]. *)
Definition scoring (self : DNSMOSWrapper) (tmp : string) (audio : list F) : event :=
  Score (scorer_id (compute_score self)) tmp (Some (clip_of audio)) 16000 false.

(** The state right after the scorer has run on the temporary file
    [tmp]. *)
Definition scored (self : DNSMOSWrapper) (tmp : string) (audio : list F)
    (s : state) : state :=
  log (scoring self tmp audio)
      (set_fs (insert tmp (clip_of audio)) (set_fs (insert tmp Blob) s)).

(** The three scores of the mapping, as floats. *)
Definition extract (clip_dict : gmap string pyval) : M (gmap string F) :=
  sig <- float_item clip_dict "SIG" ;;
  bak <- float_item clip_dict "BAK" ;;
  ovrl <- float_item clip_dict "OVRL" ;;
  ret (scores_dict sig bak ovrl).

(** The [except] clause. *)
Definition handler (e : exn) : M (option (gmap string F)) :=
  print ("Error calculating DNSMOS: " +:+ str e) ;;;
  ret None.

(** The stages after decoding, in a row. *)
Definition stages (self : DNSMOSWrapper) (data : ndarray) (sr : Z)
  : M (option (gmap string F)) :=
  audio <- normalize data sr ;;
  clip_dict <- delegate self audio ;;
  scores <- extract clip_dict ;;
  ret (Some scores).

(** The whole [try] block of a call. *)
Definition body (self : DNSMOSWrapper) (audio_path_or_array : input)
    (sample_rate : Z) : M (option (gmap string F)) :=
  match audio_path_or_array with
  | Path audio_path =>
      decoded <- sf_read audio_path ;;
      stages self (fst decoded) (snd decoded)
  | Array audio_array => stages self audio_array sample_rate
  end.

(** The scoring operation on an instance, in either form. *)
Definition score (self : DNSMOSWrapper) (audio_path_or_array : input)
    (sample_rate : Z) : M (option (gmap string F)) :=
  match audio_path_or_array with
  | Path audio_path => calculate_dnsmos self audio_path
  | Array audio_array => calculate_dnsmos_from_array self audio_array sample_rate
  end.

(** The buffer and the sample rate a call works on: the array and the
    rate given, or what [sf.read] finds in the file. *)
Definition decoded (s : state) (audio_path_or_array : input) (sample_rate : Z)
  : option (ndarray * Z) :=
  match audio_path_or_array with
  | Array audio_array => Some (audio_array, sample_rate)
  | Path audio_path =>
      match fs s !! audio_path with
      | Some (Wav data sr) => Some (data, sr)
      | _ => None
      end
  end.

(** Does a call get as far as invoking the scorer?  It does when the input
    decodes, normalization succeeds, and the temporary file is created and
    written; the answer is then the name of that file and the buffer
    written to it. *)
Definition reaches_delegation (s : state) (audio_path_or_array : input)
    (sample_rate : Z) : option (string * list F) :=
  match decoded s audio_path_or_array sample_rate with
  | Some (data, sr) =>
      match normal_form data sr with
      | Ok normal =>
          match mktemp host (fs s) with
          | Ok tmp =>
              match write_error host tmp normal 16000 with
              | None => Some (tmp, normal)
              | Some _ => None
              end
          | Raise _ => None
          end
      | Raise _ => None
      end
  | None => None
  end.

(** The calls one invocation of the operation makes: those of
    normalization, then the scorer if delegation is reached. *)
Definition call_events (self : DNSMOSWrapper) (s : state)
    (audio_path_or_array : input) (sample_rate : Z) : list event :=
  match decoded s audio_path_or_array sample_rate with
  | Some (data, sr) => normalize_events data sr
  | None => []
  end
  ++ match reaches_delegation s audio_path_or_array sample_rate with
     | Some (tmp, normal) => [scoring self tmp normal]
     | None => []
     end.

(** A stage of the call [score self audio sample_rate] from state [s]
    fails with [e], leaving the state [s']. *)
Inductive stage_fails (self : DNSMOSWrapper) (s : state)
  : input -> Z -> exn -> state -> Prop :=
| decode_fails audio_path sample_rate e s' :
    sf_read audio_path s = (Raise e, s') ->
    stage_fails self s (Path audio_path) sample_rate e s'
| normalize_fails audio sample_rate data sr e s' :
    decoded s audio sample_rate = Some (data, sr) ->
    normalize data sr s = (Raise e, s') ->
    stage_fails self s audio sample_rate e s'
| delegate_fails audio sample_rate data sr normal s1 e s' :
    decoded s audio sample_rate = Some (data, sr) ->
    normalize data sr s = (Ok normal, s1) ->
    delegate self normal s1 = (Raise e, s') ->
    stage_fails self s audio sample_rate e s'
| extract_fails audio sample_rate data sr normal s1 clip_dict s2 e s' :
    decoded s audio sample_rate = Some (data, sr) ->
    normalize data sr s = (Ok normal, s1) ->
    delegate self normal s1 = (Ok clip_dict, s2) ->
    extract clip_dict s2 = (Raise e, s') ->
    stage_fails self s audio sample_rate e s'.

(** ** The module *)

(** Running the module body on [import dnsmos_wrapper]: the import of
    [ComputeScore], then [dnsmos_wrapper = DNSMOSWrapper()].  A module
    that is loaded already is not run again. *)
Definition import_module : M unit :=
  fun s =>
    match dnsmos_wrapper s with
    | Some _ => (Ok tt, s)
    | None =>
        match import_error host with
        | Some e =>
            (Raise (Exception
               ("Could not import DNSMOS. Make sure git submodules are initialized: "
                +:+ e)), s)
        | None =>
            match DNSMOSWrapper_init s with
            | (Ok w, s') =>
                (Ok tt,
                 {| fs := fs s'; stdout := stdout s'; trace := trace s';
                    next_id := next_id s'; dnsmos_wrapper := Some w |})
            | (Raise e, s') => (Raise e, s')
            end
        end
    end.

(** [dnsmos(audio_path_or_array, sample_rate=16000)].  The function exists
    only once the module is loaded; the first branch is for completeness. *)
Definition dnsmos (audio_path_or_array : input) (sample_rate : Z)
  : M (option (gmap string F)) :=
  fun s =>
    match dnsmos_wrapper s with
    | None => (Raise (Exception "name 'dnsmos_wrapper' is not defined"), s)
    | Some wrapper =>
        match audio_path_or_array with
        | Path audio_path => calculate_dnsmos wrapper audio_path s
        | Array audio_array =>
            calculate_dnsmos_from_array wrapper audio_array sample_rate s
        end
    end.

(** ** Processes *)

(** A process that has not imported the module yet. *)
Definition fresh (files : gmap string file) : state :=
  {| fs := files; stdout := []; trace := []; next_id := 0;
     dnsmos_wrapper := None |}.

(** A caller: one call of [dnsmos] after the other. *)
Fixpoint run_calls (calls : list (input * Z)) (s : state)
  : list (result (option (gmap string F))) * state :=
  match calls with
  | [] => ([], s)
  | (audio, sample_rate) :: rest =>
      let (r, s1) := dnsmos audio sample_rate s in
      let (rs, s2) := run_calls rest s1 in
      (r :: rs, s2)
  end.

(** ** Reading a trace *)

(** The calls made between two states of one process. *)
Definition since (s s' : state) : list event :=
  drop (length (trace s)) (trace s').

(** The scorers built: their identities. *)
Definition constructions (tr : list event) : list nat :=
  omap (fun e => match e with Construct id _ _ => Some id | _ => None end) tr.

(** The scorers invoked: their identities. *)
Definition scorers_used (tr : list event) : list nat :=
  omap (fun e => match e with Score id _ _ _ _ => Some id | _ => None end) tr.

(** The arguments of the scorer invocations. *)
Definition scorer_calls (tr : list event) : list (string * Z * bool) :=
  omap (fun e => match e with
                 | Score _ path _ sr flag => Some (path, sr, flag)
                 | _ => None
                 end) tr.

(** The files the scorer found at the paths it was given. *)
Definition delegated (tr : list event) : list (option file) :=
  omap (fun e => match e with Score _ _ clip _ _ => Some clip | _ => None end) tr.

(** The buffers given to the resampler, with both rates. *)
Definition resample_calls (tr : list event) : list (list F * Z * Z) :=
  omap (fun e => match e with
                 | Resample audio orig target => Some (audio, orig, target)
                 | _ => None
                 end) tr.

End Model.

End Wrapper.

(* ===================================================================== *)
(** * The package description, [python_modules/setup.py]                  *)
(* ===================================================================== *)

Module Setup.

(** [install_requires] of the wrapper package. *)
Definition install_requires : list string :=
  ["numpy"; "scipy"; "librosa"; "soundfile"; "onnxruntime"].

End Setup.

(* ===================================================================== *)
(** * Test doubles                                                        *)
(* ===================================================================== *)

(** Concrete hosts on which the definitions above can be run. *)
Module Stub.

Import Wrapper.

(** Samples as exact rationals. *)
#[export] Instance Q_float : FloatOps Q := {|
  fzero := 0%Q;
  fadd := Qplus;
  fdiv := Qdiv;
  fof_nat n := inject_Z (Z.of_nat n);
  fof_Z n := Some (inject_Z n);
  fof_string _ := None
|}.

(** A resampler that keeps every second sample. *)
Fixpoint decimate (audio : list Q) : list Q :=
  match audio with
  | x :: _ :: rest => x :: decimate rest
  | other => other
  end.

Definition tmp_name : string := "/tmp/tmpk3x9_r2a.wav".

(** The mapping [{SIG: 3.5, BAK: 4.0, OVRL: 3.8}]. *)
Definition clip_dict : gmap string (@pyval Q) :=
  <["OVRL" := PyFloat (19 # 5)]>
    (<["BAK" := PyFloat (4 # 1)]> (<["SIG" := PyFloat (7 # 2)]> ∅)).

(** A host whose scorer answers [answer] whatever it is given. *)
Definition host_with (answer : result (gmap string (@pyval Q))) : @Host Q := {|
  parent_dir := "/opt/metrics/python_modules";
  import_error := None;
  load_models _ _ := Ok tt;
  score_clip _ _ _ _ _ := answer;
  resample audio _ _ := Ok (decimate audio);
  mktemp _ := Ok tmp_name;
  write_error _ _ _ := None
|}.

Definition scoring_host : @Host Q := host_with (Ok clip_dict).

Definition raising_host : @Host Q :=
  host_with (Raise (Exception "onnxruntime: inference failed")).

(** One second is too long to write down: four frames of stereo. *)
Definition stereo : @ndarray Q :=
  Multi [[1 # 2; 1 # 4]; [0 # 1; 1 # 1]; [-1 # 2; 1 # 2]; [3 # 4; 1 # 4]]%Q.

Definition mono : @ndarray Q := Mono [1 # 2; -1 # 4; 1 # 8]%Q.

Definition disk : gmap string (@file Q) :=
  <["speech.wav" := Wav mono 16000]> ∅.

(** The process once the module is imported. *)
Definition loaded (h : @Host Q) : state := snd (import_module h (fresh disk)).

(** The instance that import builds. *)
Definition wrapper : DNSMOSWrapper := {|
  compute_score := {|
    scorer_id := 0;
    primary_model_path :=
      "/opt/metrics/python_modules/DNSMOS/DNSMOS/DNSMOS/sig_bak_ovr.onnx";
    p808_model_path :=
      "/opt/metrics/python_modules/DNSMOS/DNSMOS/DNSMOS/model_v8.onnx"
  |}
|}.

(** Three calls in a row. *)
Definition three_calls : list (@input Q * Z) :=
  [(Array stereo, 32000); (Path "speech.wav", 16000); (Array stereo, 32000)].

(** A host on which [dnsmos_local] cannot be imported. *)
Definition no_dnsmos_host : @Host Q := {|
  parent_dir := "/opt/metrics/python_modules";
  import_error := Some "No module named 'dnsmos_local'";
  load_models _ _ := Ok tt;
  score_clip _ _ _ _ _ := Ok clip_dict;
  resample audio _ _ := Ok (decimate audio);
  mktemp _ := Ok tmp_name;
  write_error _ _ _ := None
|}.

(** A host on which the model files are missing. *)
Definition no_models_host : @Host Q := {|
  parent_dir := "/opt/metrics/python_modules";
  import_error := None;
  load_models _ _ := Raise (Exception "Load model sig_bak_ovr.onnx failed");
  score_clip _ _ _ _ _ := Ok clip_dict;
  resample audio _ _ := Ok (decimate audio);
  mktemp _ := Ok tmp_name;
  write_error _ _ _ := None
|}.

(** A host on which [sf.write] fails. *)
Definition full_disk_host : @Host Q := {|
  parent_dir := "/opt/metrics/python_modules";
  import_error := None;
  load_models _ _ := Ok tt;
  score_clip _ _ _ _ _ := Ok clip_dict;
  resample audio _ _ := Ok (decimate audio);
  mktemp _ := Ok tmp_name;
  write_error _ _ _ := Some (Exception "Error opening: No space left on device")
|}.


(** A stereo file. *)
Definition stereo_disk : gmap string (@file Q) :=
  <["duet.wav" := Wav stereo 44100]> disk.

(** The process with the stereo file on disk, once the module is
    imported. *)
Definition stereo_loaded : state :=
  snd (import_module scoring_host (fresh stereo_disk)).

(** Hosts for the installer. *)
Definition machine (version : Z * Z) (programs : list string)
    (broken : list string) : Installer.Host := {|
  Installer.version_info := version;
  Installer.executable := "/usr/bin/python3";
  Installer.which prog := bool_decide (prog ∈ programs);
  Installer.returncode cmd :=
    if bool_decide (Exists (fun package => package ∈ cmd) broken)
    then 1 else 0;
  Installer.error_text _ := "Command returned non-zero exit status 1.";
  Installer.stderr_text _ := "ERROR: No matching distribution found";
  Installer.dnsmos_dir_exists := true;
  Installer.dnsmos_git_exists := true;
  Installer.import_error := None
|}.

Definition pip_args : Installer.Args :=
  {| Installer.conda := false; Installer.force := false; Installer.verbose := false |}.

Definition conda_args : Installer.Args :=
  {| Installer.conda := true; Installer.force := true; Installer.verbose := false |}.

Definition verbose_args : Installer.Args :=
  {| Installer.conda := false; Installer.force := false; Installer.verbose := true |}.

(** A machine with pip on which no package installs and the DNSMOS
    directory is missing. *)
Definition barren : Installer.Host := {|
  Installer.version_info := (3, 12);
  Installer.executable := "/usr/bin/python3";
  Installer.which prog := bool_decide (prog = "/usr/bin/python3");
  Installer.returncode cmd := if bool_decide ("install" ∈ cmd) then 1 else 0;
  Installer.error_text _ := "Command returned non-zero exit status 1.";
  Installer.stderr_text _ := "";
  Installer.dnsmos_dir_exists := false;
  Installer.dnsmos_git_exists := false;
  Installer.import_error := Some "No module named 'librosa'"
|}.

End Stub.


(* ===================================================================== *)
(** * Properties of the installer                                         *)
(* ===================================================================== *)

Module InstallerFacts.

Import Installer.

Lemma install_cmd_head h package use_conda force :
  exists rest,
    install_cmd h package use_conda force = install_prog h use_conda :: rest
    /\ (3 < length rest)%nat.
Proof.
  unfold install_cmd, install_prog.
  destruct use_conda, force; simpl; eexists; split; try reflexivity; simpl; lia.
Qed.

(** [install_package] never lets an exception out once its program is
    known to exist; it runs exactly its command and reports a failure. *)
Lemma install_package_spec h package use_conda force verbose s :
  which h (install_prog h use_conda) = true ->
  let cmd := install_cmd h package use_conda force in
  exists s',
    install_package h package use_conda force verbose s
      = (Return (Z.eqb (returncode h cmd) 0), s')
    /\ runs s' = runs s ++ [cmd]
    /\ written s' = written s
    /\ exists extra,
         stdout s' = stdout s ++ extra
         /\ (returncode h cmd <> 0 ->
             Status ERROR ("Failed to install " +:+ package +:+ ": "
                           +:+ error_text h cmd) ∈ extra).
Proof.
  intros Hprog cmd.
  destruct (install_cmd_head h package use_conda force) as (rest & Hcmd & _).
  fold cmd in Hcmd.
  unfold install_package. fold cmd.
  unfold bind, subprocess_run, print_status, print, print_line, ret.
  destruct verbose; simpl; rewrite Hcmd, Hprog; rewrite <- Hcmd;
    destruct (Z.eqb_spec (returncode h cmd) 0) as [Hz | Hnz]; simpl.
  all: try destruct (String.eqb (stderr_text h cmd) ""); simpl.
  all: eexists; split; [reflexivity | simpl].
  all: split; [reflexivity | split; [reflexivity |]].
  all: eexists; split;
    [rewrite <- ?app_assoc; reflexivity | intros Hne; try contradiction].
  all: repeat rewrite elem_of_app; rewrite ?elem_of_cons; tauto.
Qed.

Lemma install_all_spec h args l s :
  which h (install_prog h (conda args)) = true ->
  exists s',
    for_each l (fun package =>
                  install_package h package (conda args) (force args) (verbose args)) s
      = (Return tt, s')
    /\ runs s' = runs s ++ map (fun package =>
                                install_cmd h package (conda args) (force args)) l
    /\ written s' = written s
    /\ exists extra,
         stdout s' = stdout s ++ extra
         /\ forall package,
             package ∈ l ->
             returncode h (install_cmd h package (conda args) (force args)) <> 0 ->
             failure_line h args package ∈ extra.
Proof.
  intros Hprog. revert s.
  induction l as [| package l IH]; intros s; simpl.
  - exists s. unfold ret. rewrite !app_nil_r. repeat split.
    exists []. rewrite app_nil_r. split; [reflexivity |].
    intros package Hin. inversion Hin.
  - destruct (install_package_spec h package (conda args) (force args)
                (verbose args) s Hprog) as (s1 & Hrun & Hruns & Hwr & ex1 & Hout1 & Hfail1).
    destruct (IH s1) as (s2 & Hrest & Hruns2 & Hwr2 & ex2 & Hout2 & Hfail2).
    exists s2. unfold bind. rewrite Hrun, Hrest.
    split; [reflexivity |].
    split; [rewrite Hruns2, Hruns, <- app_assoc; reflexivity |].
    split; [congruence |].
    exists (ex1 ++ ex2).
    split; [rewrite Hout2, Hout1, <- app_assoc; reflexivity |].
    intros q Hq Hne. apply elem_of_app.
    apply elem_of_cons in Hq as [-> | Hq].
    + left. apply Hfail1, Hne.
    + right. apply Hfail2; assumption.
Qed.

Lemma check_selected_spec h args s :
  check_selected h args s
    = (Return (manager_found h args),
       {| stdout := stdout s; runs := runs s ++ [probe h args];
          written := written s |}).
Proof.
  unfold manager_found, check_selected, probe, check_conda, check_pip,
    conda_version_cmd, pip_version_cmd, bind, subprocess_run, ret.
  destruct (conda args); simpl.
  - destruct (which h "conda"); simpl; [| reflexivity].
    destruct (Z.eqb _ 0); reflexivity.
  - destruct (which h (executable h)); simpl; [| reflexivity].
    destruct (Z.eqb _ 0); reflexivity.
Qed.

Lemma manager_found_prog h args :
  manager_found h args = true -> which h (install_prog h (conda args)) = true.
Proof.
  unfold manager_found, check_selected, install_prog, check_conda, check_pip,
    conda_version_cmd, pip_version_cmd, bind, subprocess_run, ret.
  destruct (conda args); simpl.
  - destruct (which h "conda"); simpl; [reflexivity | discriminate].
  - destruct (which h (executable h)); simpl; [reflexivity | discriminate].
Qed.

(** No installation command is a probe. *)
Lemma install_cmd_not_probe h args package use_conda force :
  install_cmd h package use_conda force <> probe h args.
Proof.
  destruct (install_cmd_head h package use_conda force) as (rest & -> & Hlen).
  unfold probe, conda_version_cmd, pip_version_cmd.
  destruct (conda args); intros Heq; inversion Heq; subst; simpl in Hlen; lia.
Qed.

(** [main] when the interpreter is too old: it leaves at once. *)
Lemma main_too_old h args :
  version_too_old (version_info h) = true ->
  exists s',
    run_main h args = (Exit 1, s') /\ runs s' = [] /\ written s' = [].
Proof.
  intros Hold. unfold run_main, main, bind, check_python_version.
  rewrite Hold. simpl. eexists. split; [reflexivity |]. split; reflexivity.
Qed.

(** [main] when the package manager is missing: it leaves after the
    probe. *)
Lemma main_no_manager h args :
  version_too_old (version_info h) = false ->
  manager_found h args = false ->
  exists s',
    run_main h args = (Exit 1, s')
    /\ runs s' = [probe h args] /\ written s' = [].
Proof.
  intros Hver Hnot. unfold run_main, main, check_python_version.
  rewrite Hver.
  pose proof (check_selected_spec h args) as Hcheck.
  unfold check_selected in Hcheck.
  unfold bind at 1 2 3. simpl.
  unfold bind at 1.
  destruct (conda args); unfold bind at 1; rewrite Hcheck, Hnot; simpl;
    eexists; (split; [reflexivity |]); split; reflexivity.
Qed.

#[local] Arguments for_each : simpl never.

(** [main] when both checks pass: every package is tried, in order, and
    [main] returns. *)
Lemma main_installs h args :
  version_too_old (version_info h) = false ->
  manager_found h args = true ->
  exists s',
    run_main h args = (Return tt, s')
    /\ runs s' = probe h args
                  :: map (fun package =>
                            install_cmd h package (conda args) (force args)) packages
    /\ forall package,
         package ∈ packages ->
         returncode h (install_cmd h package (conda args) (force args)) <> 0 ->
         failure_line h args package ∈ stdout s'.
Proof.
  intros Hver Hfound.
  pose proof (manager_found_prog h args Hfound) as Hprog.
  pose proof (check_selected_spec h args) as Hcheck.
  unfold check_selected in Hcheck.
  unfold run_main, main, check_python_version. rewrite Hver.
  unfold bind at 1 2 3. simpl. unfold bind at 1.
  set (s0 := {| stdout := _; runs := []; written := [] |}).
  assert (exists s1,
    (if conda args
     then found <- check_conda h ;;
          (if negb found
           then print_status "Conda not found. Please install conda or use pip." ERROR ;;;
                sys_exit 1
           else print_status "Using conda for package installation" INFO)
     else found <- check_pip h ;;
          (if negb found
           then print_status "Pip not found. Please install pip or use conda." ERROR ;;;
                sys_exit 1
           else print_status "Using pip for package installation" INFO)) s0
    = (Return tt, s1)
    /\ runs s1 = [probe h args] /\ exists pre, stdout s1 = pre) as (s1 & -> & Hruns1 & _).
  { destruct (conda args); unfold bind at 1; rewrite Hcheck, Hfound; simpl;
      eexists; (split; [reflexivity |]); split; eauto. }
  unfold bind at 1. simpl.
  unfold bind at 1.
  match goal with
  | |- context [for_each core_packages ?f ?st] =>
      destruct (install_all_spec h args core_packages st Hprog)
        as (s2 & Hcore & Hruns2 & _ & ex2 & Hout2 & Hfail2)
  end.
  rewrite Hcore. simpl in Hruns2.
  unfold bind at 1. simpl. unfold bind at 1.
  match goal with
  | |- context [for_each metrics_packages ?f ?st] =>
      destruct (install_all_spec h args metrics_packages st Hprog)
        as (s3 & Hmet & Hruns3 & _ & ex3 & Hout3 & Hfail3)
  end.
  rewrite Hmet. simpl in Hruns3, Hout3.
  assert (Hlogged : forall package,
             package ∈ packages ->
             returncode h (install_cmd h package (conda args) (force args)) <> 0 ->
             failure_line h args package ∈ stdout s3).
  { intros q Hq Hne. unfold packages in Hq. apply elem_of_app in Hq as [Hq | Hq].
    - rewrite Hout3, Hout2. specialize (Hfail2 q Hq Hne).
      repeat rewrite elem_of_app. tauto.
    - rewrite Hout3. specialize (Hfail3 q Hq Hne).
      repeat rewrite elem_of_app. tauto. }
  assert (Hruns : runs s3 = probe h args
                  :: map (fun package =>
                            install_cmd h package (conda args) (force args)) packages).
  { rewrite Hruns3, Hruns2, Hruns1. reflexivity. }
  clear Hcore Hmet Hruns2 Hruns3 Hout2 Hout3 Hfail2 Hfail3.
  unfold bind, check_dnsmos_submodule, create_dnsmos_wrapper, bind,
    print_status, print_line, write_file, ret.
  destruct (dnsmos_dir_exists h), (dnsmos_git_exists h), (import_error h); simpl;
    eexists; (split; [reflexivity |]); simpl; (split; [exact Hruns |]);
    intros q Hq Hne; specialize (Hlogged q Hq Hne);
    repeat rewrite elem_of_app; tauto.
Qed.

(** C10.  In conda mode the force flag does not reach the command: for
    every package, [install_package] with [use_conda=True] builds
    [conda install -y -c conda-forge package] whether [force] is set or
    not, and so behaves the same for both values of the flag. *)
Theorem conda_command_ignores_force h package force verbose :
  install_cmd h package true force
    = ["conda"; "install"; "-y"; "-c"; "conda-forge"; package]
  /\ install_package h package true force verbose
     = install_package h package true (negb force) verbose.
Proof.
  split; [reflexivity |].
  unfold install_package, install_cmd. reflexivity.
Qed.

(** Under pip the flag does reach the command. *)
Example pip_command_with_force :
  install_cmd (Stub.machine (3, 11) ["/usr/bin/python3"] []) "numpy" false true
  = ["/usr/bin/python3"; "-m"; "pip"; "install"; "--force-reinstall"; "numpy"].
Proof. reflexivity. Qed.

(** C7, as stated, fails: under Python 3.6 with pip present the selected
    package manager is found, and yet the exit status is 1, not 0; the
    version check comes first. *)
Lemma old_python_exits_1_although_pip_found :
  manager_found (Stub.machine (3, 6) ["/usr/bin/python3"] []) Stub.pip_args = true
  /\ exit_code (run_main (Stub.machine (3, 6) ["/usr/bin/python3"] []) Stub.pip_args)
     = 1.
Proof. split; vm_compute; reflexivity. Qed.

(** C7, amended.  If the selected package manager (pip by default, conda
    under [--conda]) is absent, the installer exits with status 1 and no
    installation command has been run.  If the interpreter is older than
    3.7 it exits with status 1 before running anything.  Otherwise every
    package of the list is tried, in order, each failure is logged as an
    ERROR line, and the exit status is 0. *)
Theorem installer_exit_status h args :
  (manager_found h args = false ->
     exit_code (run_main h args) = 1
     /\ forall package use_conda force,
          install_cmd h package use_conda force ∉ runs (snd (run_main h args)))
  /\ (version_too_old (version_info h) = true ->
        exit_code (run_main h args) = 1
        /\ runs (snd (run_main h args)) = [])
  /\ (version_too_old (version_info h) = false ->
      manager_found h args = true ->
        exit_code (run_main h args) = 0
        /\ runs (snd (run_main h args))
           = probe h args
             :: map (fun package =>
                       install_cmd h package (conda args) (force args)) packages
        /\ forall package,
             package ∈ packages ->
             returncode h (install_cmd h package (conda args) (force args)) <> 0 ->
             failure_line h args package ∈ stdout (snd (run_main h args))).
Proof.
  split; [| split].
  - intros Hnot.
    destruct (version_too_old (version_info h)) eqn:Hver.
    + destruct (main_too_old h args Hver) as (s' & -> & Hruns & _).
      split; [reflexivity |]. simpl. rewrite Hruns.
      intros package use_conda force Hin. inversion Hin.
    + destruct (main_no_manager h args Hver Hnot) as (s' & -> & Hruns & _).
      split; [reflexivity |]. simpl. rewrite Hruns.
      intros package use_conda force Hin.
      apply list_elem_of_singleton in Hin.
      exact (install_cmd_not_probe h args package use_conda force Hin).
  - intros Hver.
    destruct (main_too_old h args Hver) as (s' & -> & Hruns & _).
    split; [reflexivity | exact Hruns].
  - intros Hver Hfound.
    destruct (main_installs h args Hver Hfound) as (s' & -> & Hruns & Hlog).
    split; [reflexivity |]. split; [exact Hruns | exact Hlog].
Qed.

(** The cases of [installer_exit_status] on concrete machines: no pip, no
    conda under [--conda], Python 3.6, and Python 3.11 with pip where
    [pypesq] fails. *)
Lemma installer_exit_status_witness :
  exit_code (run_main (Stub.machine (3, 11) [] ["pypesq"]) Stub.pip_args) = 1
  /\ exit_code (run_main (Stub.machine (3, 11) ["/usr/bin/python3"] [])
                         Stub.conda_args) = 1
  /\ exit_code (run_main (Stub.machine (3, 6) ["/usr/bin/python3"] []) Stub.pip_args) = 1
  /\ exit_code (run_main (Stub.machine (3, 11) ["/usr/bin/python3"] ["pypesq"])
                         Stub.pip_args) = 0
  /\ failure_line (Stub.machine (3, 11) ["/usr/bin/python3"] ["pypesq"])
                  Stub.pip_args "pypesq"
       ∈ stdout (snd (run_main (Stub.machine (3, 11) ["/usr/bin/python3"] ["pypesq"])
                               Stub.pip_args)).
Proof.
  split; [| split; [| split]].
  - destruct (installer_exit_status (Stub.machine (3, 11) [] ["pypesq"]) Stub.pip_args)
      as (Habsent & _ & _).
    apply Habsent. vm_compute. reflexivity.
  - destruct (installer_exit_status (Stub.machine (3, 11) ["/usr/bin/python3"] [])
                Stub.conda_args) as (Habsent & _ & _).
    apply Habsent. vm_compute. reflexivity.
  - destruct (installer_exit_status (Stub.machine (3, 6) ["/usr/bin/python3"] [])
                Stub.pip_args) as (_ & Hold & _).
    apply Hold. vm_compute. reflexivity.
  - destruct (installer_exit_status (Stub.machine (3, 11) ["/usr/bin/python3"] ["pypesq"])
                Stub.pip_args) as (_ & _ & Hok).
    destruct Hok as (Hexit & _ & Hlog).
    + vm_compute. reflexivity.
    + vm_compute. reflexivity.
    + split; [exact Hexit |].
      apply Hlog.
      * vm_compute. repeat constructor.
      * vm_compute. discriminate.
Defined.

End InstallerFacts.

(* ===================================================================== *)
(** * Properties of the scoring wrapper                                   *)
(* ===================================================================== *)

Module WrapperFacts.

Import Wrapper.

Section Stages.

Context {F : Type} `{FloatOps F} (host : @Host F).

Notation "x <- m ;; k" := (bind m (fun x => k))
  (at level 100, m at next level, right associativity).

(** *** The state between two points of a run *)

Lemma since_app (s s' : @state F) new :
  trace s' = trace s ++ new -> since s s' = new.
Proof. intros Heq. unfold since. rewrite Heq. apply drop_app_length. Qed.

(** *** Delegation *)

Lemma delegate_eq self audio s :
  delegate host self audio s =
  match mktemp host (fs s) with
  | Raise e => (Raise e, s)
  | Ok tmp =>
      match write_error host tmp audio 16000 with
      | Some e => (Raise e, set_fs (insert tmp Blob) s)
      | None =>
          match answer host self audio with
          | Raise e => (Raise e, scored self tmp audio s)
          | Ok clip_dict =>
              (Ok clip_dict, set_fs (delete tmp) (scored self tmp audio s))
          end
      end
  end.
Proof.
  unfold delegate, bind, NamedTemporaryFile.
  destruct (mktemp host (fs s)) as [tmp | e]; [| reflexivity].
  unfold sf_write. destruct (write_error host tmp audio 16000) as [e |]; [reflexivity |].
  unfold call_scorer, os_unlink, answer, scored, clip_of. simpl.
  rewrite !lookup_insert_eq.
  destruct (score_clip host _ _ _ 16000 false) as [clip_dict | e]; reflexivity.
Qed.

(** *** Extraction *)

Lemma extract_state clip_dict s : snd (extract clip_dict s) = s.
Proof.
  unfold extract, float_item, bind, lift, ret.
  repeat (case_match; simplify_eq; simpl in * ); reflexivity.
Qed.

Lemma extract_ok clip_dict v1 v2 v3 sig bak ovrl s :
  clip_dict !! "SIG" = Some v1 -> py_float v1 = Ok sig ->
  clip_dict !! "BAK" = Some v2 -> py_float v2 = Ok bak ->
  clip_dict !! "OVRL" = Some v3 -> py_float v3 = Ok ovrl ->
  extract clip_dict s = (Ok (scores_dict sig bak ovrl), s).
Proof.
  intros H1 F1 H2 F2 H3 F3.
  unfold extract, float_item, bind, lift, ret, getitem.
  rewrite H1, H2, H3, F1, F2, F3. reflexivity.
Qed.

(** *** The method bodies, stage by stage *)

Lemma from_array_eq self audio_array sample_rate s :
  calculate_dnsmos_from_array host self audio_array sample_rate s
  = try_except (stages host self audio_array sample_rate) handler s.
Proof.
  unfold calculate_dnsmos_from_array, stages, try_except, normalize, delegate,
    extract, handler, to_mono, bind, ret.
  repeat (case_match; simplify_eq; simpl in * ); try reflexivity; congruence.
Qed.

Lemma sf_read_state audio_path (s : @state F) :
  snd (sf_read audio_path s) = s.
Proof. unfold sf_read. repeat case_match; reflexivity. Qed.

Lemma sf_read_decoded audio_path sample_rate (s : @state F) data sr :
  decoded s (Path audio_path) sample_rate = Some (data, sr)
  <-> sf_read audio_path s = (Ok (data, sr), s).
Proof.
  unfold decoded, sf_read.
  destruct (fs s !! audio_path) as [[d r |] |]; split; intros Heq;
    simplify_eq; reflexivity.
Qed.

Lemma file_eq self audio_path s :
  calculate_dnsmos host self audio_path s
  = try_except (body host self (Path audio_path) 16000) handler s.
Proof.
  unfold calculate_dnsmos, body, stages, try_except, normalize, delegate,
    extract, handler, to_mono, bind, ret.
  repeat (case_match; simplify_eq; simpl in * ); try reflexivity; congruence.
Qed.

(** Either form of the operation is its [try] block under the [except]
    clause. *)
Lemma score_eq self audio sample_rate s :
  score host self audio sample_rate s
  = try_except (body host self audio sample_rate) handler s.
Proof.
  destruct audio as [audio_path | audio_array]; simpl.
  - apply file_eq.
  - apply from_array_eq.
Qed.

(** A failing stage makes the [try] block raise, and only that does. *)
Lemma stage_fails_body self s audio sample_rate e s' :
  stage_fails host self s audio sample_rate e s'
  <-> body host self audio sample_rate s = (Raise e, s').
Proof.
  split.
  - intros Hfail. destruct Hfail as
      [ audio_path sample_rate e s' Hread
      | audio sample_rate data sr e s' Hdec Hnorm
      | audio sample_rate data sr normal s1 e s' Hdec Hnorm Hdel
      | audio sample_rate data sr normal s1 clip_dict s2 e s' Hdec Hnorm Hdel Hext ].
    + unfold body, bind. rewrite Hread. reflexivity.
    + destruct audio as [audio_path | audio_array]; unfold body, stages, bind.
      * apply sf_read_decoded in Hdec. rewrite Hdec. simpl. rewrite Hnorm. reflexivity.
      * simpl in Hdec. simplify_eq. rewrite Hnorm. reflexivity.
    + destruct audio as [audio_path | audio_array]; unfold body, stages, bind.
      * apply sf_read_decoded in Hdec. rewrite Hdec. simpl.
        rewrite Hnorm, Hdel. reflexivity.
      * simpl in Hdec. simplify_eq. rewrite Hnorm, Hdel. reflexivity.
    + destruct audio as [audio_path | audio_array]; unfold body, stages, bind.
      * apply sf_read_decoded in Hdec. rewrite Hdec. simpl.
        rewrite Hnorm, Hdel, Hext. reflexivity.
      * simpl in Hdec. simplify_eq. rewrite Hnorm, Hdel, Hext. reflexivity.
  - intros Hbody.
    assert (Hst : forall data sr,
               decoded s audio sample_rate = Some (data, sr) ->
               stages host self data sr s = (Raise e, s') ->
               stage_fails host self s audio sample_rate e s').
    { intros data sr Hdec Hstages. unfold stages, bind in Hstages.
      destruct (normalize host data sr s) as [[normal | e1] s1] eqn:Hnorm.
      - destruct (delegate host self normal s1) as [[clip_dict | e2] s2] eqn:Hdel.
        + destruct (extract clip_dict s2) as [[scores | e3] s3] eqn:Hext.
          * discriminate.
          * simplify_eq. eapply extract_fails; eassumption.
        + simplify_eq. eapply delegate_fails; eassumption.
      - simplify_eq. eapply normalize_fails; eassumption. }
    destruct audio as [audio_path | audio_array]; unfold body in Hbody.
    + unfold bind in Hbody.
      destruct (sf_read audio_path s) as [[[data sr] | e0] s0] eqn:Hread.
      * pose proof (sf_read_state audio_path s) as Hs0. rewrite Hread in Hs0.
        simpl in Hs0. subst s0.
        apply (Hst data sr); [| exact Hbody].
        apply sf_read_decoded. exact Hread.
      * simplify_eq. apply decode_fails. exact Hread.
    + apply (Hst audio_array sample_rate); [reflexivity | exact Hbody].
Qed.

(** On an input that decodes, the [try] block is the stages after
    decoding. *)
Lemma body_decoded self audio sample_rate s data sr :
  decoded s audio sample_rate = Some (data, sr) ->
  body host self audio sample_rate s = stages host self data sr s.
Proof.
  intros Hdec. destruct audio as [audio_path | audio_array]; simpl.
  - apply sf_read_decoded in Hdec. unfold bind. rewrite Hdec. reflexivity.
  - simpl in Hdec. simplify_eq. reflexivity.
Qed.

(** *** What a call does to the process *)

Lemma normalize_eq audio sr s :
  exists s1,
    normalize host audio sr s = (normal_form host audio sr, s1)
    /\ fs s1 = fs s /\ stdout s1 = stdout s
    /\ next_id s1 = next_id s /\ dnsmos_wrapper s1 = dnsmos_wrapper s
    /\ trace s1 = trace s ++ normalize_events audio sr.
Proof.
  unfold normalize, normal_form, normalize_events, librosa_resample, ret.
  destruct (bool_decide (sr ≠ 16000)); eexists; (split; [reflexivity |]); simpl;
    rewrite ?app_nil_r; repeat split; reflexivity.
Qed.

Lemma delegate_effects self normal s :
  let s' := snd (delegate host self normal s) in
  next_id s' = next_id s /\ dnsmos_wrapper s' = dnsmos_wrapper s
  /\ trace s' = trace s
                ++ match mktemp host (fs s) with
                   | Ok tmp =>
                       match write_error host tmp normal 16000 with
                       | None => [scoring self tmp normal]
                       | Some _ => []
                       end
                   | Raise _ => []
                   end.
Proof.
  rewrite delegate_eq.
  destruct (mktemp host (fs s)) as [tmp | e]; simpl.
  2: { rewrite app_nil_r. repeat split. }
  destruct (write_error host tmp normal 16000) as [e |]; simpl.
  { rewrite app_nil_r. repeat split. }
  destruct (answer host self normal) as [clip_dict | e]; simpl; repeat split.
Qed.

Lemma stages_effects self data sr s :
  let s' := snd (stages host self data sr s) in
  next_id s' = next_id s /\ dnsmos_wrapper s' = dnsmos_wrapper s
  /\ trace s' = trace s ++ normalize_events data sr
                ++ match normal_form host data sr with
                   | Ok normal =>
                       match mktemp host (fs s) with
                       | Ok tmp =>
                           match write_error host tmp normal 16000 with
                           | None => [scoring self tmp normal]
                           | Some _ => []
                           end
                       | Raise _ => []
                       end
                   | Raise _ => []
                   end.
Proof.
  unfold stages, bind.
  destruct (normalize_eq data sr s) as (s1 & -> & Hfs & _ & Hid & Hw & Htr).
  destruct (normal_form host data sr) as [normal | e]; simpl.
  2: { rewrite app_nil_r. repeat split; assumption. }
  pose proof (delegate_effects self normal s1) as Hdel. simpl in Hdel.
  rewrite Hfs, Htr, <- app_assoc in Hdel.
  destruct (delegate host self normal s1) as [[clip_dict | e] s2]; simpl in *.
  - pose proof (extract_state clip_dict s2) as Hext.
    destruct (extract clip_dict s2) as [[scores | e] s3]; simpl in *; subst s3;
      destruct Hdel as (Hid2 & Hw2 & Htr2); repeat split; congruence.
  - destruct Hdel as (Hid2 & Hw2 & Htr2); repeat split; congruence.
Qed.

(** A call of the operation leaves the module global and the object counter
    alone, and makes exactly the calls of [call_events]. *)
Lemma score_trace self audio sample_rate s :
  let s' := snd (score host self audio sample_rate s) in
  next_id s' = next_id s /\ dnsmos_wrapper s' = dnsmos_wrapper s
  /\ trace s' = trace s ++ call_events host self s audio sample_rate.
Proof.
  intros s'.
  subst s'. rewrite score_eq. unfold try_except, call_events, reaches_delegation.
  destruct (decoded s audio sample_rate) as [[data sr] |] eqn:Hdec.
  - rewrite (body_decoded self audio sample_rate s data sr Hdec).
    pose proof (stages_effects self data sr s) as Heff. simpl in Heff.
    destruct (stages host self data sr s) as [[r | e] s1]; simpl in *;
      destruct Heff as (Hid & Hw & Htr); rewrite Htr;
      repeat split; try assumption;
      destruct (normal_form host data sr) as [normal |]; try reflexivity;
      destruct (mktemp host (fs s)) as [tmp |]; try reflexivity;
      destruct (write_error host tmp normal 16000); reflexivity.
  - rewrite app_nil_r.
    destruct audio as [audio_path | audio_array]; [| discriminate].
    simpl in *. unfold bind, sf_read.
    destruct (fs s !! audio_path) as [[d r |] |]; [discriminate | |];
      simpl; repeat split; reflexivity.
Qed.

Lemma score_effects self audio sample_rate s :
  let s' := snd (score host self audio sample_rate s) in
  next_id s' = next_id s /\ dnsmos_wrapper s' = dnsmos_wrapper s
  /\ since s s' = call_events host self s audio sample_rate.
Proof.
  destruct (score_trace self audio sample_rate s) as (Hid & Hw & Htr).
  repeat split; try assumption. apply since_app. exact Htr.
Qed.

(** *** Reading the calls of one invocation *)

Lemma constructions_call_events self s audio sample_rate :
  constructions (call_events host self s audio sample_rate) = [].
Proof.
  unfold constructions, call_events, normalize_events. rewrite omap_app.
  destruct (decoded s audio sample_rate) as [[data sr] |];
    destruct (reaches_delegation host s audio sample_rate) as [[tmp normal] |];
    try destruct (bool_decide (sr ≠ 16000)); reflexivity.
Qed.

Lemma scorers_used_call_events self s audio sample_rate :
  Forall (eq (scorer_id (compute_score self)))
         (scorers_used (call_events host self s audio sample_rate)).
Proof.
  unfold scorers_used, call_events, normalize_events. rewrite omap_app.
  destruct (decoded s audio sample_rate) as [[data sr] |];
    destruct (reaches_delegation host s audio sample_rate) as [[tmp normal] |];
    try destruct (bool_decide (sr ≠ 16000)); simpl; repeat constructor.
Qed.

Lemma scorer_calls_call_events self s audio sample_rate :
  scorer_calls (call_events host self s audio sample_rate)
  = match reaches_delegation host s audio sample_rate with
    | Some (tmp, _) => [(tmp, 16000, false)]
    | None => []
    end.
Proof.
  unfold scorer_calls, call_events, normalize_events. rewrite omap_app.
  destruct (decoded s audio sample_rate) as [[data sr] |];
    destruct (reaches_delegation host s audio sample_rate) as [[tmp normal] |];
    try destruct (bool_decide (sr ≠ 16000)); reflexivity.
Qed.

Lemma delegated_call_events self s audio sample_rate :
  delegated (call_events host self s audio sample_rate)
  = match reaches_delegation host s audio sample_rate with
    | Some (_, normal) => [Some (Wav (Mono normal) 16000)]
    | None => []
    end.
Proof.
  unfold delegated, call_events, normalize_events. rewrite omap_app.
  destruct (decoded s audio sample_rate) as [[data sr] |];
    destruct (reaches_delegation host s audio sample_rate) as [[tmp normal] |];
    try destruct (bool_decide (sr ≠ 16000)); reflexivity.
Qed.

Lemma resample_calls_call_events self s audio sample_rate data sr :
  decoded s audio sample_rate = Some (data, sr) ->
  resample_calls (call_events host self s audio sample_rate)
  = if bool_decide (sr ≠ 16000) then [(to_mono data, sr, 16000)] else [].
Proof.
  intros Hdec.
  unfold resample_calls, call_events, normalize_events. rewrite omap_app, Hdec.
  destruct (reaches_delegation host s audio sample_rate) as [[tmp normal] |];
    destruct (bool_decide (sr ≠ 16000)); reflexivity.
Qed.

Lemma reaches_delegation_inv s audio sample_rate tmp normal :
  reaches_delegation host s audio sample_rate = Some (tmp, normal) ->
  exists data sr,
    decoded s audio sample_rate = Some (data, sr)
    /\ normal_form host data sr = Ok normal
    /\ mktemp host (fs s) = Ok tmp
    /\ write_error host tmp normal 16000 = None.
Proof.
  unfold reaches_delegation. intros Hreach.
  destruct (decoded s audio sample_rate) as [[data sr] |]; [| discriminate].
  exists data, sr.
  destruct (normal_form host data sr) as [normal' |]; [| discriminate].
  destruct (mktemp host (fs s)) as [tmp' |]; [| discriminate].
  destruct (write_error host tmp' normal' 16000) eqn:Hwr; [discriminate |].
  simplify_eq. repeat split; assumption.
Qed.

(** *** The arguments of the scorer *)

(** C9.  On every call of the scoring operation that reaches delegation the
    scorer is invoked once, with exactly the arguments (temporary file
    path, 16000, False), whatever the input and its sample rate are; a call
    that does not reach delegation does not invoke the scorer. *)
Theorem scorer_arguments self audio sample_rate s :
  scorer_calls (since s (snd (score host self audio sample_rate s)))
  = match reaches_delegation host s audio sample_rate with
    | Some (tmp, _) => [(tmp, 16000, false)]
    | None => []
    end.
Proof.
  destruct (score_effects self audio sample_rate s) as (_ & _ & ->).
  apply scorer_calls_call_events.
Qed.

(** *** The sample rate of the delegated buffer *)

(** C4.  The file handed to the scorer is always written at 16000 Hz.  When
    the sample rate of the input buffer is not 16000, the resampler is
    called once, from that rate to 16000, and the file holds the
    resampler's output.  When the rate is 16000 the resampler is not called
    and the file holds the mono buffer as it is; an input that is mono
    already is written unchanged. *)
Theorem delegated_buffer_is_16k self audio sample_rate s data sr :
  decoded s audio sample_rate = Some (data, sr) ->
  let new := since s (snd (score host self audio sample_rate s)) in
  delegated new
  = match reaches_delegation host s audio sample_rate with
    | Some (_, normal) => [Some (Wav (Mono normal) 16000)]
    | None => []
    end
  /\ (sr <> 16000 ->
        resample_calls new = [(to_mono data, sr, 16000)]
        /\ forall tmp normal,
             reaches_delegation host s audio sample_rate = Some (tmp, normal) ->
             resample host (to_mono data) sr 16000 = Ok normal)
  /\ (sr = 16000 ->
        resample_calls new = []
        /\ forall tmp normal,
             reaches_delegation host s audio sample_rate = Some (tmp, normal) ->
             normal = to_mono data
             /\ forall samples, data = Mono samples -> Mono normal = data).
Proof.
  intros Hdec new.
  destruct (score_effects self audio sample_rate s) as (_ & _ & Hnew).
  fold new in Hnew. rewrite Hnew.
  split; [apply delegated_call_events |].
  rewrite (resample_calls_call_events self s audio sample_rate data sr Hdec).
  split.
  - intros Hsr. rewrite bool_decide_eq_true_2 by exact Hsr.
    split; [reflexivity |].
    intros tmp normal Hreach.
    apply reaches_delegation_inv in Hreach as (data' & sr' & Hdec' & Hnf & _).
    rewrite Hdec in Hdec'. simplify_eq.
    unfold normal_form in Hnf. rewrite bool_decide_eq_true_2 in Hnf by exact Hsr.
    exact Hnf.
  - intros Hsr.
    rewrite bool_decide_eq_false_2 by (intros Hne; exact (Hne Hsr)).
    split; [reflexivity |].
    intros tmp normal Hreach.
    apply reaches_delegation_inv in Hreach as (data' & sr' & Hdec' & Hnf & _).
    rewrite Hdec in Hdec'. simplify_eq.
    unfold normal_form in Hnf.
    rewrite bool_decide_eq_false_2 in Hnf by (intros Hne; exact (Hne eq_refl)).
    simplify_eq. split; [reflexivity |]. intros samples ->. reflexivity.
Qed.

(** *** The mono buffer *)

(** C5.  For a multi-channel input the mono buffer is a function of the
    input: one sample per frame, each the sum of the frame over its
    channels divided by their number (for stereo, the sum of left and
    right divided by two).  That buffer is the one written for the scorer
    when the rate is 16000, and the one given to the resampler
    otherwise. *)
Theorem mono_is_mean_over_channels self audio sample_rate s frames sr :
  decoded s audio sample_rate = Some (Multi frames, sr) ->
  let mono := to_mono (Multi frames) in
  let new := since s (snd (score host self audio sample_rate s)) in
  length mono = length frames
  /\ (forall i row,
        frames !! i = Some row ->
        mono !! i = Some (fdiv (np_sum row) (fof_nat (length row))))
  /\ (forall i left right,
        frames !! i = Some [left; right] ->
        mono !! i = Some (fdiv (fadd left right) (fof_nat 2)))
  /\ (sr = 16000 ->
        forall tmp normal,
          reaches_delegation host s audio sample_rate = Some (tmp, normal) ->
          delegated new = [Some (Wav (Mono mono) 16000)])
  /\ (sr <> 16000 -> resample_calls new = [(mono, sr, 16000)]).
Proof.
  intros Hdec mono new.
  destruct (score_effects self audio sample_rate s) as (_ & _ & Hnew).
  fold new in Hnew. rewrite Hnew.
  assert (Hrow : forall i row,
             frames !! i = Some row ->
             mono !! i = Some (fdiv (np_sum row) (fof_nat (length row)))).
  { intros i row Hi. subst mono. unfold to_mono, np_mean_axis1.
    rewrite list_lookup_fmap, Hi. reflexivity. }
  split; [| split; [exact Hrow | split; [| split]]].
  - subst mono. unfold to_mono, np_mean_axis1. apply length_map.
  - intros i left right Hi. rewrite (Hrow i _ Hi). reflexivity.
  - intros Hsr tmp normal Hreach.
    rewrite delegated_call_events, Hreach.
    apply reaches_delegation_inv in Hreach as (data' & sr' & Hdec' & Hnf & _).
    rewrite Hdec in Hdec'. simplify_eq.
    unfold normal_form in Hnf.
    rewrite bool_decide_eq_false_2 in Hnf by (intros Hne; exact (Hne eq_refl)).
    simplify_eq. reflexivity.
  - intros Hsr.
    rewrite (resample_calls_call_events self s audio sample_rate _ sr Hdec).
    rewrite bool_decide_eq_true_2 by exact Hsr. reflexivity.
Qed.

(** *** The file form and the sample-rate argument *)

(** C8.  Called with a file path, [dnsmos] does not look at its
    [sample_rate] argument: for every path and every two values of the
    argument, the two calls give the same result and leave the same
    state.  The rate found in the file is used instead: the call is the
    array form on the decoded samples at the file's own rate. *)
Theorem file_form_ignores_sample_rate audio_path sample_rate1 sample_rate2 s :
  dnsmos host (Path audio_path) sample_rate1 s
  = dnsmos host (Path audio_path) sample_rate2 s
  /\ forall data sr,
       fs s !! audio_path = Some (Wav data sr) ->
       dnsmos host (Path audio_path) sample_rate1 s
       = dnsmos host (Array data) sr s.
Proof.
  split; [reflexivity |].
  intros data sr Hfile. unfold dnsmos.
  destruct (dnsmos_wrapper s) as [wrapper |]; [| reflexivity].
  rewrite file_eq, from_array_eq. unfold try_except.
  rewrite (body_decoded wrapper (Path audio_path) 16000 s data sr).
  - reflexivity.
  - simpl. rewrite Hfile. reflexivity.
Qed.

(** *** Failures *)

(** C3.  The scoring operation never raises.  If a stage of it fails
    (decoding the file, normalizing, which covers the resampler,
    delegating, which covers a scorer that raises, or extracting the
    scores), the failure is caught, one diagnostic line is printed, and
    the result is None. *)
Theorem failures_give_None self audio sample_rate s :
  (exists result s', score host self audio sample_rate s = (Ok result, s'))
  /\ forall e s1,
       stage_fails host self s audio sample_rate e s1 ->
       score host self audio sample_rate s
       = (Ok None, say ("Error calculating DNSMOS: " +:+ str e) s1).
Proof.
  split.
  - rewrite score_eq. unfold try_except, handler, bind, print, ret.
    destruct (body host self audio sample_rate s) as [[r | e] s1]; eauto.
  - intros e s1 Hfail. apply stage_fails_body in Hfail.
    rewrite score_eq. unfold try_except. rewrite Hfail. reflexivity.
Qed.

(** A scorer that raises makes the delegation stage fail. *)
Lemma scorer_raises_delegate_fails self normal s tmp e :
  mktemp host (fs s) = Ok tmp ->
  write_error host tmp normal 16000 = None ->
  answer host self normal = Raise e ->
  delegate host self normal s = (Raise e, scored self tmp normal s).
Proof.
  intros Htmp Hwr Hans. rewrite delegate_eq, Htmp, Hwr, Hans. reflexivity.
Qed.

(** *** The scores *)

Lemma scores_dict_dom (sig bak ovrl : F) :
  dom (scores_dict sig bak ovrl) = ({["SIG"; "BAK"; "OVRL"]} : gset string).
Proof.
  unfold scores_dict. rewrite !dom_insert_L, dom_empty_L.
  apply set_eq. intros key.
  rewrite !elem_of_union, !elem_of_singleton, elem_of_empty. tauto.
Qed.

(** C6.  Whenever the scorer returns a mapping that has SIG, BAK and
    OVRL, with values [float] accepts, the scoring operation returns a
    dictionary with exactly the keys SIG, BAK and OVRL, each holding the
    [float] of the scorer's value under that key. *)
Theorem scores_are_returned self audio sample_rate s data sr normal tmp
    clip_dict v1 v2 v3 sig bak ovrl :
  decoded s audio sample_rate = Some (data, sr) ->
  normal_form host data sr = Ok normal ->
  mktemp host (fs s) = Ok tmp ->
  write_error host tmp normal 16000 = None ->
  answer host self normal = Ok clip_dict ->
  clip_dict !! "SIG" = Some v1 -> py_float v1 = Ok sig ->
  clip_dict !! "BAK" = Some v2 -> py_float v2 = Ok bak ->
  clip_dict !! "OVRL" = Some v3 -> py_float v3 = Ok ovrl ->
  exists scores,
    fst (score host self audio sample_rate s) = Ok (Some scores)
    /\ dom scores = ({["SIG"; "BAK"; "OVRL"]} : gset string)
    /\ scores !! "SIG" = Some sig
    /\ scores !! "BAK" = Some bak
    /\ scores !! "OVRL" = Some ovrl.
Proof.
  intros Hdec Hnf Htmp Hwr Hans H1 F1 H2 F2 H3 F3.
  exists (scores_dict sig bak ovrl).
  split; [| split; [apply scores_dict_dom | repeat split; reflexivity]].
  rewrite score_eq. unfold try_except.
  rewrite (body_decoded self audio sample_rate s data sr Hdec).
  unfold stages, bind.
  destruct (normalize_eq data sr s) as (s1 & -> & Hfs & _).
  rewrite Hnf, delegate_eq, Hfs, Htmp, Hwr, Hans.
  rewrite (extract_ok clip_dict v1 v2 v3 sig bak ovrl _ H1 F1 H2 F2 H3 F3).
  reflexivity.
Qed.

(** *** The temporary file *)

(** When the scorer returns, the temporary file is gone afterwards,
    whatever the extraction of the scores does. *)
Lemma temp_file_removed_when_scorer_returns self audio sample_rate s data sr
    normal tmp clip_dict :
  decoded s audio sample_rate = Some (data, sr) ->
  normal_form host data sr = Ok normal ->
  mktemp host (fs s) = Ok tmp ->
  write_error host tmp normal 16000 = None ->
  answer host self normal = Ok clip_dict ->
  fs (snd (score host self audio sample_rate s)) = delete tmp (fs s).
Proof.
  intros Hdec Hnf Htmp Hwr Hans.
  rewrite score_eq. unfold try_except.
  rewrite (body_decoded self audio sample_rate s data sr Hdec).
  unfold stages, bind.
  destruct (normalize_eq data sr s) as (s1 & -> & Hfs & _).
  rewrite Hnf, delegate_eq, Hfs, Htmp, Hwr, Hans.
  match goal with
  | |- context [extract clip_dict ?st] =>
      pose proof (extract_state clip_dict st) as Hext;
      destruct (extract clip_dict st) as [[scores | e] s3]
  end; simpl in Hext; subst s3; simpl; rewrite Hfs;
    rewrite insert_insert_eq, delete_insert_eq; reflexivity.
Qed.

(** When the scorer raises, the temporary file stays on disk: the
    [os.unlink] after the scorer call is skipped. *)
Lemma temp_file_left_when_scorer_raises self audio sample_rate s data sr
    normal tmp e :
  decoded s audio sample_rate = Some (data, sr) ->
  normal_form host data sr = Ok normal ->
  mktemp host (fs s) = Ok tmp ->
  write_error host tmp normal 16000 = None ->
  answer host self normal = Raise e ->
  score host self audio sample_rate s
  = (Ok None, say ("Error calculating DNSMOS: " +:+ str e)
                  (scored self tmp normal
                     (snd (normalize host data sr s))))
  /\ fs (snd (score host self audio sample_rate s)) !! tmp
     = Some (Wav (Mono normal) 16000).
Proof.
  intros Hdec Hnf Htmp Hwr Hans.
  assert (Hrun : score host self audio sample_rate s
                 = (Ok None, say ("Error calculating DNSMOS: " +:+ str e)
                               (scored self tmp normal
                                  (snd (normalize host data sr s))))).
  { rewrite score_eq. unfold try_except.
    rewrite (body_decoded self audio sample_rate s data sr Hdec).
    unfold stages, bind.
    destruct (normalize_eq data sr s) as (s1 & Hnorm & Hfs & _).
    rewrite Hnorm, Hnf, delegate_eq, Hfs, Htmp, Hwr, Hans. reflexivity. }
  split; [exact Hrun |].
  rewrite Hrun. simpl. apply lookup_insert_eq.
Qed.

(** *** The scorer object *)

Lemma dnsmos_loaded s wrapper audio sample_rate :
  dnsmos_wrapper s = Some wrapper ->
  dnsmos host audio sample_rate s = score host wrapper audio sample_rate s.
Proof.
  intros Hw. unfold dnsmos, score. rewrite Hw. destruct audio; reflexivity.
Qed.

(** Calls never build a scorer, and all use the scorer of the module
    global. *)
Lemma run_calls_effects calls s wrapper :
  dnsmos_wrapper s = Some wrapper ->
  let s' := snd (run_calls host calls s) in
  dnsmos_wrapper s' = Some wrapper
  /\ next_id s' = next_id s
  /\ exists new,
       trace s' = trace s ++ new
       /\ constructions new = []
       /\ Forall (eq (scorer_id (compute_score wrapper))) (scorers_used new).
Proof.
  revert s. induction calls as [| [audio sample_rate] calls IH]; intros s Hw; simpl.
  - repeat split; try assumption. exists []. rewrite app_nil_r.
    repeat split. constructor.
  - rewrite (dnsmos_loaded s wrapper audio sample_rate Hw).
    destruct (score_trace wrapper audio sample_rate s) as (Hid & Hw1 & Htr).
    pose proof (constructions_call_events wrapper s audio sample_rate) as Hcons.
    pose proof (scorers_used_call_events wrapper s audio sample_rate) as Hused.
    set (new1 := call_events host wrapper s audio sample_rate) in *.
    destruct (score host wrapper audio sample_rate s) as [r s1]. simpl in *.
    rewrite Hw in Hw1.
    destruct (IH s1 Hw1) as (Hw2 & Hid2 & new2 & Htr2 & Hcons2 & Hused2).
    destruct (run_calls host calls s1) as [rs s2]. simpl in *.
    split; [exact Hw2 |]. split; [congruence |].
    exists (new1 ++ new2).
    split; [rewrite Htr2, Htr, <- app_assoc; reflexivity |].
    unfold constructions, scorers_used in *. rewrite !omap_app.
    split; [rewrite Hcons, Hcons2; reflexivity |].
    apply Forall_app. split; assumption.
Qed.

(** The state a successful first import leaves. *)
Lemma import_module_fresh files s0 :
  import_module host (fresh files) = (Ok tt, s0) ->
  let models := parent_dir host +:+ "/DNSMOS/DNSMOS/DNSMOS" in
  trace s0 = [Construct 0 (models +:+ "/sig_bak_ovr.onnx")
                        (models +:+ "/model_v8.onnx")]
  /\ exists wrapper,
       dnsmos_wrapper s0 = Some wrapper
       /\ scorer_id (compute_score wrapper) = 0%nat.
Proof.
  unfold import_module, fresh, DNSMOSWrapper_init, new_ComputeScore, bind, ret.
  simpl. destruct (import_error host); [discriminate |].
  destruct (load_models host _ _); [| discriminate].
  intros Heq. simplify_eq. simpl. split; [reflexivity |]. eauto.
Qed.

(** C2, amended.  The scorer object is built exactly once per process,
    from the two fixed model paths, when the wrapper module is imported
    and so before any call of the scoring operation; every call reuses
    that instance, no call builds a scorer, and importing the module
    again builds none either. *)
Theorem scorer_built_once_at_import files s0 calls :
  import_module host (fresh files) = (Ok tt, s0) ->
  let models := parent_dir host +:+ "/DNSMOS/DNSMOS/DNSMOS" in
  let s' := snd (run_calls host calls s0) in
  trace s0 = [Construct 0 (models +:+ "/sig_bak_ovr.onnx")
                        (models +:+ "/model_v8.onnx")]
  /\ constructions (trace s') = [0%nat]
  /\ Forall (eq 0%nat) (scorers_used (trace s'))
  /\ import_module host s' = (Ok tt, s').
Proof.
  intros Himp models s'.
  destruct (import_module_fresh files s0 Himp) as (Htr0 & wrapper & Hw & Hid).
  fold models in Htr0.
  destruct (run_calls_effects calls s0 wrapper Hw)
    as (Hw' & _ & new & Htr & Hcons & Hused).
  fold s' in Hw', Htr.
  split; [exact Htr0 |].
  rewrite Htr, Htr0. unfold constructions, scorers_used in *.
  rewrite !omap_app, Hcons. simpl.
  split; [reflexivity |]. split.
  - rewrite Hid in Hused. exact Hused.
  - unfold import_module. rewrite Hw'. reflexivity.
Qed.

End Stages.

(** ** Runs on the test doubles *)

Import Stub.

(** C1 fails on the code when the scorer raises.  With a scorer that
    raises, either form of the operation returns None and the temporary
    file, absent before the call, is still on disk after it, holding the
    samples written for the scorer. *)
Theorem temp_file_survives_raising_scorer :
  fs (loaded raising_host) !! tmp_name = None
  /\ fst (dnsmos raising_host (Array mono) 16000 (loaded raising_host)) = Ok None
  /\ fs (snd (dnsmos raising_host (Array mono) 16000 (loaded raising_host))) !! tmp_name
     = Some (Wav mono 16000)
  /\ fst (dnsmos raising_host (Path "speech.wav") 16000 (loaded raising_host)) = Ok None
  /\ fs (snd (dnsmos raising_host (Path "speech.wav") 16000 (loaded raising_host)))
       !! tmp_name
     = Some (Wav mono 16000).
Proof. repeat split; vm_compute; reflexivity. Qed.

(** A stereo buffer at 32 kHz on the scoring stub: averaged, resampled,
    scored. *)
Example stereo_call :
  dnsmos scoring_host (Array stereo) 32000 (loaded scoring_host)
  = (Ok (Some (scores_dict (7 # 2) (4 # 1) (19 # 5))),
     log (Score 0 tmp_name (Some (Wav (Mono (decimate (to_mono stereo))) 16000))
                16000 false)
         (log (Resample (to_mono stereo) 32000 16000) (loaded scoring_host))).
Proof. vm_compute. reflexivity. Qed.

(** With a scorer that returns, the same calls leave no temporary file. *)
Example temp_file_gone_after_scoring :
  fs (snd (dnsmos scoring_host (Array mono) 16000 (loaded scoring_host))) !! tmp_name
  = None
  /\ fs (snd (dnsmos scoring_host (Path "speech.wav") 16000 (loaded scoring_host)))
       !! tmp_name
     = None.
Proof. split; vm_compute; reflexivity. Qed.

(** C2, as stated, fails: the scorer is not built on the first call.  It
    exists once the module is imported, before any call, and the first
    call builds nothing. *)
Lemma scorer_built_before_first_call :
  constructions (trace (loaded scoring_host)) = [0%nat]
  /\ constructions
       (since (loaded scoring_host)
              (snd (dnsmos scoring_host (Array mono) 16000 (loaded scoring_host))))
     = [].
Proof. split; vm_compute; reflexivity. Qed.

Lemma scorer_built_once_at_import_witness :
  constructions (trace (snd (run_calls scoring_host three_calls (loaded scoring_host))))
  = [0%nat]
  /\ Forall (eq 0%nat)
       (scorers_used
          (trace (snd (run_calls scoring_host three_calls (loaded scoring_host))))).
Proof.
  destruct (scorer_built_once_at_import scoring_host disk (loaded scoring_host)
              three_calls) as (_ & Hcons & Hused & _).
  - vm_compute. reflexivity.
  - split; [exact Hcons | exact Hused].
Defined.

Lemma failures_give_None_witness :
  fst (score raising_host wrapper (Array mono) 16000 (loaded raising_host)) = Ok None.
Proof.
  destruct (failures_give_None raising_host wrapper (Array mono) 16000
              (loaded raising_host)) as (_ & Hcaught).
  erewrite Hcaught; [reflexivity |].
  eapply delegate_fails.
  - reflexivity.
  - reflexivity.
  - apply scorer_raises_delegate_fails; reflexivity.
Defined.

Lemma delegated_buffer_is_16k_witness :
  (let new := since (loaded scoring_host)
                    (snd (score scoring_host wrapper (Array stereo) 32000
                                (loaded scoring_host))) in
   resample_calls new = [(to_mono stereo, 32000, 16000)]
   /\ delegated new = [Some (Wav (Mono (decimate (to_mono stereo))) 16000)])
  /\ (let new := since (loaded scoring_host)
                       (snd (score scoring_host wrapper (Path "speech.wav") 8000
                                   (loaded scoring_host))) in
      resample_calls new = [] /\ delegated new = [Some (Wav mono 16000)]).
Proof.
  split.
  - destruct (delegated_buffer_is_16k scoring_host wrapper (Array stereo) 32000
                (loaded scoring_host) stereo 32000) as (Hfile & Hother & _).
    + reflexivity.
    + destruct Hother as (Hres & _); [lia |].
      split; [exact Hres | exact Hfile].
  - destruct (delegated_buffer_is_16k scoring_host wrapper (Path "speech.wav") 8000
                (loaded scoring_host) mono 16000) as (Hfile & _ & Hsame).
    + vm_compute. reflexivity.
    + destruct Hsame as (Hres & _); [reflexivity |].
      split; [exact Hres | exact Hfile].
Defined.

Lemma mono_is_mean_over_channels_witness :
  to_mono stereo !! 1%nat = Some (fdiv (fadd (0 # 1) (1 # 1)) (fof_nat 2))
  /\ delegated
       (since (loaded scoring_host)
              (snd (score scoring_host wrapper (Array stereo) 16000
                          (loaded scoring_host))))
     = [Some (Wav (Mono (to_mono stereo)) 16000)].
Proof.
  destruct (mono_is_mean_over_channels scoring_host wrapper (Array stereo) 16000
              (loaded scoring_host)
              [[1 # 2; 1 # 4]; [0 # 1; 1 # 1]; [-1 # 2; 1 # 2]; [3 # 4; 1 # 4]]%Q 16000)
    as (_ & _ & Hstereo & Hsame & _).
  - reflexivity.
  - split.
    + apply (Hstereo 1%nat). reflexivity.
    + apply (Hsame eq_refl tmp_name (to_mono stereo)). vm_compute. reflexivity.
Defined.

Lemma scores_are_returned_witness :
  exists scores,
    fst (score scoring_host wrapper (Array mono) 16000 (loaded scoring_host))
    = Ok (Some scores)
    /\ dom scores = ({["SIG"; "BAK"; "OVRL"]} : gset string)
    /\ scores !! "SIG" = Some (7 # 2)%Q
    /\ scores !! "BAK" = Some (4 # 1)%Q
    /\ scores !! "OVRL" = Some (19 # 5)%Q.
Proof.
  apply (scores_are_returned scoring_host wrapper (Array mono) 16000
           (loaded scoring_host) mono 16000 (to_mono mono) tmp_name clip_dict
           (PyFloat (7 # 2)%Q) (PyFloat (4 # 1)%Q) (PyFloat (19 # 5)%Q));
    vm_compute; reflexivity.
Defined.

Lemma file_form_ignores_sample_rate_witness :
  dnsmos scoring_host (Path "speech.wav") 44100 (loaded scoring_host)
  = dnsmos scoring_host (Array mono) 16000 (loaded scoring_host).
Proof.
  destruct (file_form_ignores_sample_rate scoring_host "speech.wav" 44100 8000
              (loaded scoring_host)) as (_ & Hfile).
  apply Hfile. vm_compute. reflexivity.
Defined.

End WrapperFacts.

(* ===================================================================== *)
(** * Further properties of the installer                                 *)
(* ===================================================================== *)

Module InstallerMore.

Import Installer InstallerFacts.

(** ** The version gate *)



(** ** The probes *)


(** ** One installation *)

(** [install_package] catches CalledProcessError only: when the program of
    the command is missing, FileNotFoundError leaves the function, after
    the command was tried, and neither the success line nor the failure
    line is printed. *)
Theorem install_package_program_missing h package use_conda force verbose s :
  which h (install_prog h use_conda) = false ->
  let r := install_package h package use_conda force verbose s in
  fst r = Uncaught "FileNotFoundError"
  /\ runs (snd r) = runs s ++ [install_cmd h package use_conda force]
  /\ stdout (snd r)
     = stdout s
       ++ (if verbose
           then [Status INFO ("Running: " +:+ String.concat " "
                                (install_cmd h package use_conda force))]
           else []).
Proof.
  intros Hprog r. subst r.
  destruct (install_cmd_head h package use_conda force) as (rest & Hcmd & _).
  unfold install_package, bind, subprocess_run, print_status, print_line, ret.
  destruct verbose; simpl; rewrite Hcmd, Hprog; simpl;
    rewrite ?app_nil_r; repeat split; reflexivity.
Qed.

Lemma install_package_program_missing_witness :
  fst (install_package (Stub.machine (3, 11) ["/usr/bin/python3"] []) "numpy"
         true false false initial)
  = Uncaught "FileNotFoundError".
Proof.
  apply (install_package_program_missing
           (Stub.machine (3, 11) ["/usr/bin/python3"] []) "numpy" true false false
           initial).
  vm_compute. reflexivity.
Defined.

(** When the program exists, [install_package] returns True exactly when
    the command ends with status 0, and prints, after the optional
    "Running" line of verbose mode, either the success line or the failure
    line; the line "Error details" follows a failure only outside verbose
    mode and only when the captured stderr is not empty. *)
Theorem install_package_report h package use_conda force verbose s :
  which h (install_prog h use_conda) = true ->
  let cmd := install_cmd h package use_conda force in
  let r := install_package h package use_conda force verbose s in
  fst r = Return (Z.eqb (returncode h cmd) 0)
  /\ stdout (snd r)
     = stdout s
       ++ (if verbose
           then [Status INFO ("Running: " +:+ String.concat " " cmd)]
           else [])
       ++ (if Z.eqb (returncode h cmd) 0
           then [Status SUCCESS ("Successfully installed " +:+ package)]
           else Status ERROR ("Failed to install " +:+ package +:+ ": "
                              +:+ error_text h cmd)
                :: (if negb verbose && negb (String.eqb (stderr_text h cmd) "")
                    then [Plain ("Error details: " +:+ stderr_text h cmd)]
                    else [])).
Proof.
  intros Hprog cmd r. subst r.
  destruct (install_cmd_head h package use_conda force) as (rest & Hcmd & _).
  fold cmd in Hcmd.
  unfold install_package. fold cmd.
  unfold bind, subprocess_run, print_status, print, print_line, ret.
  destruct verbose; simpl; rewrite Hcmd, Hprog; rewrite <- Hcmd;
    destruct (Z.eqb (returncode h cmd) 0); simpl;
    try destruct (String.eqb (stderr_text h cmd) ""); simpl;
    rewrite <- ?app_assoc; split; reflexivity.
Qed.

Lemma install_package_report_witness :
  fst (install_package (Stub.machine (3, 11) ["/usr/bin/python3"] ["pypesq"]) "pypesq"
         false false false initial)
  = Return false
  /\ stdout (snd (install_package (Stub.machine (3, 11) ["/usr/bin/python3"] ["pypesq"])
                     "pypesq" false false false initial))
     = [Status ERROR "Failed to install pypesq: Command returned non-zero exit status 1.";
        Plain "Error details: ERROR: No matching distribution found"].
Proof.
  apply (install_package_report (Stub.machine (3, 11) ["/usr/bin/python3"] ["pypesq"])
           "pypesq" false false false initial).
  vm_compute. reflexivity.
Defined.

(** ** The whole run *)

#[local] Arguments for_each : simpl never.

(** [main] when both checks pass, with the files it writes and the lines
    it is sure to print. *)
Lemma main_outcome h args :
  version_too_old (version_info h) = false ->
  manager_found h args = true ->
  exists s',
    run_main h args = (Return tt, s')
    /\ runs s' = probe h args
                  :: map (fun package =>
                            install_cmd h package (conda args) (force args)) packages
    /\ written s' = (if dnsmos_dir_exists h && dnsmos_git_exists h
                     then ["python_modules/dnsmos_wrapper.py"] else [])
    /\ Status SUCCESS "Installation completed!" ∈ stdout s'.
Proof.
  intros Hver Hfound.
  pose proof (manager_found_prog h args Hfound) as Hprog.
  pose proof (check_selected_spec h args) as Hcheck.
  unfold check_selected in Hcheck.
  unfold run_main, main, check_python_version. rewrite Hver.
  unfold bind at 1 2 3. simpl. unfold bind at 1.
  set (s0 := {| stdout := _; runs := []; written := [] |}).
  assert (exists s1,
    (if conda args
     then found <- check_conda h ;;
          (if negb found
           then print_status "Conda not found. Please install conda or use pip." ERROR ;;;
                sys_exit 1
           else print_status "Using conda for package installation" INFO)
     else found <- check_pip h ;;
          (if negb found
           then print_status "Pip not found. Please install pip or use conda." ERROR ;;;
                sys_exit 1
           else print_status "Using pip for package installation" INFO)) s0
    = (Return tt, s1)
    /\ runs s1 = [probe h args] /\ written s1 = []) as (s1 & -> & Hruns1 & Hwr1).
  { destruct (conda args); unfold bind at 1; rewrite Hcheck, Hfound; simpl;
      eexists; (split; [reflexivity |]); split; reflexivity. }
  unfold bind at 1. simpl.
  unfold bind at 1.
  match goal with
  | |- context [for_each core_packages ?f ?st] =>
      destruct (install_all_spec h args core_packages st Hprog)
        as (s2 & Hcore & Hruns2 & Hwr2 & _)
  end.
  rewrite Hcore. simpl in Hruns2, Hwr2.
  unfold bind at 1. simpl. unfold bind at 1.
  match goal with
  | |- context [for_each metrics_packages ?f ?st] =>
      destruct (install_all_spec h args metrics_packages st Hprog)
        as (s3 & Hmet & Hruns3 & Hwr3 & _)
  end.
  rewrite Hmet. simpl in Hruns3, Hwr3.
  assert (Hruns : runs s3 = probe h args
                  :: map (fun package =>
                            install_cmd h package (conda args) (force args)) packages).
  { rewrite Hruns3, Hruns2, Hruns1. reflexivity. }
  assert (Hwr : written s3 = []) by congruence.
  clear Hcore Hmet Hruns2 Hruns3 Hwr2 Hwr3.
  unfold bind, check_dnsmos_submodule, create_dnsmos_wrapper, bind,
    print_status, print_line, write_file, ret.
  destruct (dnsmos_dir_exists h), (dnsmos_git_exists h), (import_error h); simpl;
    eexists; (split; [reflexivity |]); simpl; (split; [exact Hruns |]);
    rewrite ?Hwr; (split; [reflexivity |]);
    repeat rewrite elem_of_app; rewrite ?elem_of_cons; tauto.
Qed.

(** The three ways a run of [main] can go. *)
Lemma main_cases h args :
  (version_too_old (version_info h) = true
   /\ exists s', run_main h args = (Exit 1, s') /\ runs s' = [] /\ written s' = [])
  \/ (version_too_old (version_info h) = false /\ manager_found h args = false
      /\ exists s', run_main h args = (Exit 1, s')
                    /\ runs s' = [probe h args] /\ written s' = [])
  \/ (version_too_old (version_info h) = false /\ manager_found h args = true
      /\ exists s',
           run_main h args = (Return tt, s')
           /\ runs s' = probe h args
                         :: map (fun package =>
                                   install_cmd h package (conda args) (force args))
                                packages
           /\ written s' = (if dnsmos_dir_exists h && dnsmos_git_exists h
                            then ["python_modules/dnsmos_wrapper.py"] else [])
           /\ Status SUCCESS "Installation completed!" ∈ stdout s').
Proof.
  destruct (version_too_old (version_info h)) eqn:Hver.
  - left. split; [reflexivity |]. apply main_too_old. exact Hver.
  - destruct (manager_found h args) eqn:Hfound.
    + right. right. repeat split. apply main_outcome; assumption.
    + right. left. repeat split. apply main_no_manager; assumption.
Qed.

Lemma probe_head h args :
  exists rest, probe h args = install_prog h (conda args) :: rest.
Proof.
  unfold probe, install_prog, conda_version_cmd, pip_version_cmd.
  destruct (conda args); eauto.
Qed.

(** Whatever happens, [main] starts no program but the one of the selected
    package manager: [conda] under [--conda], the running interpreter
    (for [-m pip]) otherwise. *)
Theorem only_selected_manager_runs h args cmd :
  cmd ∈ runs (snd (run_main h args)) ->
  head cmd = Some (install_prog h (conda args)).
Proof.
  intros Hin.
  destruct (main_cases h args)
    as [(_ & s' & Hrun & Hruns & _)
       | [(_ & _ & s' & Hrun & Hruns & _) | (_ & _ & s' & Hrun & Hruns & _)]];
    rewrite Hrun in Hin; simpl in Hin; rewrite Hruns in Hin.
  - inversion Hin.
  - apply list_elem_of_singleton in Hin as ->.
    destruct (probe_head h args) as (rest & ->). reflexivity.
  - apply elem_of_cons in Hin as [-> | Hin].
    + destruct (probe_head h args) as (rest & ->). reflexivity.
    + apply list_elem_of_In, in_map_iff in Hin as (package & <- & _).
      destruct (install_cmd_head h package (conda args) (force args)) as (rest & -> & _).
      reflexivity.
Qed.

Lemma only_selected_manager_runs_witness :
  head ["conda"; "install"; "-y"; "-c"; "conda-forge"; "tqdm"] = Some "conda".
Proof.
  apply (only_selected_manager_runs (Stub.machine (3, 11) ["conda"] []) Stub.conda_args).
  vm_compute. repeat constructor.
Defined.

(** The package is the last word of its installation command. *)
Lemma install_cmd_last h package use_conda force :
  last (install_cmd h package use_conda force) = Some package.
Proof. unfold install_cmd. destruct use_conda, force; reflexivity. Qed.

Lemma packages_NoDup : NoDup packages.
Proof.
  unfold packages, core_packages, metrics_packages. simpl.
  repeat (apply NoDup_cons; split;
          [rewrite ?elem_of_cons, elem_of_nil; intros Hin;
           repeat (destruct Hin as [Hin | Hin]; [discriminate |]); exact Hin |]).
  apply NoDup_nil. trivial.
Qed.

Lemma install_cmds_NoDup h use_conda force (l : list string) :
  NoDup l -> NoDup (map (fun package => install_cmd h package use_conda force) l).
Proof.
  induction 1 as [| package l Hnotin Hnd IH]; simpl.
  - apply NoDup_nil. trivial.
  - apply NoDup_cons. split; [| exact IH].
    intros Hin. apply list_elem_of_In, in_map_iff in Hin as (q & Heq & Hq).
    assert (q = package) as ->.
    { pose proof (install_cmd_last h q use_conda force) as Hlast.
      rewrite Heq, install_cmd_last in Hlast. congruence. }
    apply Hnotin, list_elem_of_In, Hq.
Qed.

(** No retries: in a run of [main] no command is given to
    [subprocess.run] twice, whatever fails. *)
Theorem no_command_runs_twice h args :
  NoDup (runs (snd (run_main h args))).
Proof.
  destruct (main_cases h args)
    as [(_ & s' & Hrun & Hruns & _)
       | [(_ & _ & s' & Hrun & Hruns & _) | (_ & _ & s' & Hrun & Hruns & _)]];
    rewrite Hrun; simpl; rewrite Hruns.
  - apply NoDup_nil. trivial.
  - apply NoDup_singleton.
  - apply NoDup_cons. split.
    + intros Hin. apply list_elem_of_In, in_map_iff in Hin as (package & Heq & _).
      exact (install_cmd_not_probe h args package _ _ Heq).
    + apply install_cmds_NoDup, packages_NoDup.
Qed.

(** The wrapper file [python_modules/dnsmos_wrapper.py] is the only file
    [main] ever writes, and it is written exactly when both checks pass
    and the DNSMOS directory exists with a [.git] entry in it; no package
    failure and no import failure prevents or causes it. *)
Theorem wrapper_file_written h args :
  written (snd (run_main h args))
  = if negb (version_too_old (version_info h)) && manager_found h args
       && dnsmos_dir_exists h && dnsmos_git_exists h
    then ["python_modules/dnsmos_wrapper.py"]
    else [].
Proof.
  destruct (main_cases h args)
    as [(Hver & s' & Hrun & _ & Hwr)
       | [(Hver & Hfound & s' & Hrun & _ & Hwr)
         | (Hver & Hfound & s' & Hrun & _ & Hwr & _)]];
    rewrite Hrun; simpl; rewrite Hwr, Hver, ?Hfound; reflexivity.
Qed.

(** A missing DNSMOS directory is not fatal, and failures are not
    reported in the verdict: once both checks pass, [main] prints
    "Installation completed!" as a SUCCESS line and ends with status 0,
    also when every installation fails and the import test fails. *)
Theorem completion_is_unconditional h args :
  version_too_old (version_info h) = false ->
  manager_found h args = true ->
  Status SUCCESS "Installation completed!" ∈ stdout (snd (run_main h args))
  /\ exit_code (run_main h args) = 0.
Proof.
  intros Hver Hfound.
  destruct (main_outcome h args Hver Hfound) as (s' & -> & _ & _ & Hdone).
  split; [exact Hdone | reflexivity].
Qed.

Lemma completion_is_unconditional_witness :
  Status SUCCESS "Installation completed!"
    ∈ stdout (snd (run_main Stub.barren Stub.pip_args))
  /\ exit_code (run_main Stub.barren Stub.pip_args) = 0.
Proof.
  apply (completion_is_unconditional Stub.barren Stub.pip_args);
    vm_compute; reflexivity.
Defined.

(** Every requirement that [setup.py] lists for the wrapper package is among
    the packages [main] tries to install once both checks pass. *)
Theorem requirements_are_installed h args requirement :
  version_too_old (version_info h) = false ->
  manager_found h args = true ->
  requirement ∈ Setup.install_requires ->
  install_cmd h requirement (conda args) (force args)
    ∈ runs (snd (run_main h args)).
Proof.
  intros Hver Hfound Hreq.
  destruct (main_outcome h args Hver Hfound) as (s' & -> & Hruns & _).
  simpl. rewrite Hruns. apply list_elem_of_further.
  apply list_elem_of_In.
  apply (in_map (fun package => install_cmd h package (conda args) (force args))).
  apply list_elem_of_In.
  unfold Setup.install_requires in Hreq.
  unfold packages, core_packages, metrics_packages. simpl.
  rewrite !elem_of_cons in Hreq. rewrite !elem_of_cons.
  tauto.
Qed.

Lemma requirements_are_installed_witness :
  ["/usr/bin/python3"; "-m"; "pip"; "install"; "onnxruntime"]
    ∈ runs (snd (run_main Stub.barren Stub.pip_args)).
Proof.
  apply (requirements_are_installed Stub.barren Stub.pip_args "onnxruntime").
  - vm_compute. reflexivity.
  - vm_compute. reflexivity.
  - vm_compute. repeat constructor.
Defined.

End InstallerMore.

(* ===================================================================== *)
(** * Further properties of the scoring wrapper                           *)
(* ===================================================================== *)

Module WrapperMore.

Import Wrapper WrapperFacts.

Section Calls.

Context {F : Type} `{FloatOps F} (host : @Host F).

(** ** One call, case by case *)

Lemma extract_pure clip_dict (s s' : @state F) :
  fst (extract clip_dict s) = fst (extract clip_dict s').
Proof.
  unfold extract, float_item, bind, lift, ret.
  repeat (case_match; simplify_eq; simpl in * ); reflexivity.
Qed.

(** The stages after decoding, written out. *)
Lemma stages_eq self data sr s :
  stages host self data sr s =
  let s1 := if bool_decide (sr ≠ 16000)
            then log (Resample (to_mono data) sr 16000) s else s in
  match normal_form host data sr with
  | Raise e => (Raise e, s1)
  | Ok normal =>
      match mktemp host (fs s) with
      | Raise e => (Raise e, s1)
      | Ok tmp =>
          match write_error host tmp normal 16000 with
          | Some e => (Raise e, set_fs (insert tmp Blob) s1)
          | None =>
              match answer host self normal with
              | Raise e => (Raise e, scored self tmp normal s1)
              | Ok clip_dict =>
                  let s2 := set_fs (delete tmp) (scored self tmp normal s1) in
                  match fst (extract clip_dict s) with
                  | Ok scores => (Ok (Some scores), s2)
                  | Raise e => (Raise e, s2)
                  end
              end
          end
      end
  end.
Proof.
  unfold stages, bind, normalize, normal_form, librosa_resample, ret.
  assert (Hdel : forall normal s1,
             fs s1 = fs s ->
             match delegate host self normal s1 with
             | (Ok clip_dict, s2) =>
                 match extract clip_dict s2 with
                 | (Ok scores, s3) => (Ok (Some scores), s3)
                 | (Raise e, s3) => (Raise e, s3)
                 end
             | (Raise e, s2) => (Raise e, s2)
             end
             = match mktemp host (fs s) with
               | Raise e => (Raise e, s1)
               | Ok tmp =>
                   match write_error host tmp normal 16000 with
                   | Some e => (Raise e, set_fs (insert tmp Blob) s1)
                   | None =>
                       match answer host self normal with
                       | Raise e => (Raise e, scored self tmp normal s1)
                       | Ok clip_dict =>
                           match fst (extract clip_dict s) with
                           | Ok scores =>
                               (Ok (Some scores),
                                set_fs (delete tmp) (scored self tmp normal s1))
                           | Raise e =>
                               (Raise e, set_fs (delete tmp) (scored self tmp normal s1))
                           end
                       end
                   end
               end).
  { intros normal s1 Hfs. rewrite delegate_eq, Hfs.
    destruct (mktemp host (fs s)) as [tmp | e]; [| reflexivity].
    destruct (write_error host tmp normal 16000); [reflexivity |].
    destruct (answer host self normal) as [clip_dict | e]; [| reflexivity].
    match goal with
    | |- context [extract clip_dict ?st] =>
        pose proof (extract_state clip_dict st) as Hst;
        pose proof (extract_pure clip_dict st s) as Hpure;
        destruct (extract clip_dict st) as [[scores | e] s3]
    end; simpl in Hst, Hpure; subst s3; rewrite <- Hpure; reflexivity. }
  destruct (bool_decide (sr ≠ 16000)); simpl.
  - destruct (resample host (to_mono data) sr 16000) as [normal | e]; [| reflexivity].
    apply Hdel. reflexivity.
  - apply Hdel. reflexivity.
Qed.

(** The files a call leaves on disk. *)
Lemma score_fs self audio sample_rate s :
  fs (snd (score host self audio sample_rate s)) =
  match decoded s audio sample_rate with
  | None => fs s
  | Some (data, sr) =>
      match normal_form host data sr with
      | Raise _ => fs s
      | Ok normal =>
          match mktemp host (fs s) with
          | Raise _ => fs s
          | Ok tmp =>
              match write_error host tmp normal 16000 with
              | Some _ => <[tmp := Blob]> (fs s)
              | None =>
                  match answer host self normal with
                  | Raise _ => <[tmp := clip_of normal]> (fs s)
                  | Ok _ => delete tmp (fs s)
                  end
              end
          end
      end
  end.
Proof.
  rewrite score_eq. unfold try_except.
  destruct (decoded s audio sample_rate) as [[data sr] |] eqn:Hdec.
  - rewrite (body_decoded host self audio sample_rate s data sr Hdec), stages_eq.
    simpl.
    assert (Hfs1 : fs (if bool_decide (sr ≠ 16000)
                       then log (Resample (to_mono data) sr 16000) s else s) = fs s)
      by (destruct (bool_decide (sr ≠ 16000)); reflexivity).
    destruct (normal_form host data sr) as [normal | e]; [| exact Hfs1].
    destruct (mktemp host (fs s)) as [tmp | e]; [| exact Hfs1].
    destruct (write_error host tmp normal 16000); [simpl; rewrite Hfs1; reflexivity |].
    destruct (answer host self normal) as [clip_dict | e].
    + destruct (fst (extract clip_dict s)); simpl; rewrite Hfs1;
        rewrite insert_insert_eq, delete_insert_eq; reflexivity.
    + simpl. rewrite Hfs1. apply insert_insert_eq.
  - destruct audio as [audio_path | audio_array]; [| discriminate].
    simpl in *. unfold bind, sf_read.
    destruct (fs s !! audio_path) as [[d r |] |]; [discriminate | |]; reflexivity.
Qed.

(** ** The disk *)

(** A call touches no file but its temporary file: every other path holds
    after the call what it held before, whether the call succeeds or not.
    In particular the audio file given by path is neither changed nor
    removed. *)
Theorem other_files_untouched self audio sample_rate s path :
  (forall tmp, mktemp host (fs s) = Ok tmp -> path <> tmp) ->
  fs (snd (score host self audio sample_rate s)) !! path = fs s !! path.
Proof.
  intros Hother. rewrite score_fs.
  destruct (decoded s audio sample_rate) as [[data sr] |]; [| reflexivity].
  destruct (normal_form host data sr) as [normal |]; [| reflexivity].
  destruct (mktemp host (fs s)) as [tmp |] eqn:Htmp; [| reflexivity].
  assert (Hne : tmp <> path) by (intros ->; exact (Hother path eq_refl eq_refl)).
  destruct (write_error host tmp normal 16000).
  - apply lookup_insert_ne. exact Hne.
  - destruct (answer host self normal).
    + apply lookup_delete_ne. exact Hne.
    + apply lookup_insert_ne. exact Hne.
Qed.

(** A call that returns scores leaves the disk exactly as it found it,
    provided the temporary name was not in use. *)
Theorem successful_call_restores_disk self audio sample_rate s scores :
  fst (score host self audio sample_rate s) = Ok (Some scores) ->
  (forall tmp, mktemp host (fs s) = Ok tmp -> fs s !! tmp = None) ->
  fs (snd (score host self audio sample_rate s)) = fs s.
Proof.
  intros Hres Hfresh. rewrite score_fs.
  rewrite score_eq in Hres. unfold try_except in Hres.
  destruct (decoded s audio sample_rate) as [[data sr] |] eqn:Hdec; [| reflexivity].
  rewrite (body_decoded host self audio sample_rate s data sr Hdec), stages_eq in Hres.
  simpl in Hres.
  destruct (normal_form host data sr) as [normal |]; [| reflexivity].
  destruct (mktemp host (fs s)) as [tmp |] eqn:Htmp; [| reflexivity].
  destruct (write_error host tmp normal 16000); [discriminate |].
  destruct (answer host self normal); [| discriminate].
  apply delete_id, Hfresh. reflexivity.
Qed.

(** What becomes of the temporary file.  Once the file has been created
    under a name that was free, it is still on disk after the call exactly
    when [sf.write] failed or the scorer raised; when the scorer returned
    it is gone, also if the scores could not be extracted. *)
Theorem temporary_file_fate self audio sample_rate s data sr normal tmp :
  decoded s audio sample_rate = Some (data, sr) ->
  normal_form host data sr = Ok normal ->
  mktemp host (fs s) = Ok tmp ->
  fs s !! tmp = None ->
  is_Some (fs (snd (score host self audio sample_rate s)) !! tmp)
  <-> (is_Some (write_error host tmp normal 16000)
       \/ exists e, answer host self normal = Raise e).
Proof.
  intros Hdec Hnf Htmp Hfree. rewrite score_fs, Hdec, Hnf, Htmp.
  destruct (write_error host tmp normal 16000) as [e |].
  - rewrite lookup_insert_eq. split; eauto.
  - destruct (answer host self normal) as [clip_dict | e].
    + rewrite lookup_delete_eq. split.
      * intros [x Hx]. discriminate.
      * intros [[x Hx] | [e He]]; discriminate.
    + rewrite lookup_insert_eq. split; eauto.
Qed.

(** A call that fails before the temporary file exists (the input does not
    decode, the resampler fails, or no temporary file can be created)
    returns None, leaves the disk as it was and does not invoke the
    scorer. *)
Theorem early_failure_is_clean self audio sample_rate s :
  decoded s audio sample_rate = None
  \/ (exists data sr e,
        decoded s audio sample_rate = Some (data, sr)
        /\ normal_form host data sr = Raise e)
  \/ (exists e, mktemp host (fs s) = Raise e) ->
  fst (score host self audio sample_rate s) = Ok None
  /\ fs (snd (score host self audio sample_rate s)) = fs s
  /\ scorer_calls (since s (snd (score host self audio sample_rate s))) = [].
Proof.
  intros Hearly.
  assert (Hreach : reaches_delegation host s audio sample_rate = None).
  { unfold reaches_delegation.
    destruct Hearly as [-> | [(data & sr & e & -> & ->) | (e & Htmp)]];
      try reflexivity.
    rewrite Htmp. repeat case_match; reflexivity. }
  split; [| split].
  - rewrite score_eq. unfold try_except.
    destruct (decoded s audio sample_rate) as [[data sr] |] eqn:Hdec.
    + rewrite (body_decoded host self audio sample_rate s data sr Hdec), stages_eq.
      simpl.
      destruct Hearly as [Hnone | [(data' & sr' & e & Heq & Hnf) | (e & Htmp)]].
      * discriminate.
      * simplify_eq. rewrite Hnf. reflexivity.
      * rewrite Htmp. destruct (normal_form host data sr); reflexivity.
    + destruct audio as [audio_path | audio_array]; [| discriminate].
      simpl in *. unfold bind, sf_read.
      destruct (fs s !! audio_path) as [[d r |] |]; [discriminate | |]; reflexivity.
  - rewrite score_fs.
    destruct Hearly as [-> | [(data & sr & e & -> & ->) | (e & Htmp)]];
      try reflexivity.
    rewrite Htmp. repeat case_match; reflexivity.
  - destruct (score_effects host self audio sample_rate s) as (_ & _ & ->).
    rewrite scorer_calls_call_events, Hreach. reflexivity.
Qed.

(** ** Output *)



(** ** The mapping of the scorer *)


(** ** Import *)

(** Importing the module fails, and leaves no scorer and no module global
    behind, when [dnsmos_local] cannot be imported (an ImportError whose
    text starts with the hint about git submodules) and when the scorer
    cannot be built from the two model files (the error of the scorer,
    unchanged): there is no attempt to score without models. *)
Theorem import_failures files :
  (forall text,
     import_error host = Some text ->
     import_module host (fresh files)
     = (Raise (Exception
                 ("Could not import DNSMOS. Make sure git submodules are initialized: "
                  +:+ text)),
        fresh files))
  /\ (forall e,
        import_error host = None ->
        load_models host
          ((parent_dir host +:+ "/DNSMOS/DNSMOS/DNSMOS") +:+ "/sig_bak_ovr.onnx")
          ((parent_dir host +:+ "/DNSMOS/DNSMOS/DNSMOS") +:+ "/model_v8.onnx")
        = Raise e ->
        import_module host (fresh files) = (Raise e, fresh files)).
Proof.
  unfold import_module, fresh, DNSMOSWrapper_init, new_ComputeScore, bind, ret. simpl.
  split.
  - intros text ->. reflexivity.
  - intros e -> ->. reflexivity.
Qed.

(** ** Several calls *)

Lemma score_returns self audio sample_rate s :
  exists result, fst (score host self audio sample_rate s) = Ok result.
Proof.
  rewrite score_eq. unfold try_except, handler, bind, print, ret.
  destruct (body host self audio sample_rate s) as [[r | e] s1]; simpl; eauto.
Qed.

(** Once the module is imported, a caller gets one result per call and no
    call of [dnsmos] raises, whatever the inputs are and whichever calls
    failed before. *)
Theorem calls_never_raise files s0 calls :
  import_module host (fresh files) = (Ok tt, s0) ->
  length (fst (run_calls host calls s0)) = length calls
  /\ Forall (fun r => exists result, r = Ok result) (fst (run_calls host calls s0)).
Proof.
  intros Himp.
  destruct (import_module_fresh host files s0 Himp) as (_ & wrapper & Hw & _).
  clear Himp. revert s0 Hw.
  induction calls as [| [audio sample_rate] calls IH]; intros s0 Hw; simpl.
  - split; [reflexivity | constructor].
  - rewrite (dnsmos_loaded host s0 wrapper audio sample_rate Hw).
    destruct (score_returns wrapper audio sample_rate s0) as (result & Hres).
    destruct (score_trace host wrapper audio sample_rate s0) as (_ & Hw1 & _).
    destruct (score host wrapper audio sample_rate s0) as [r s1]. simpl in *.
    rewrite Hw in Hw1. destruct (IH s1 Hw1) as (Hlen & Hall).
    destruct (run_calls host calls s1) as [rs s2]. simpl in *.
    split; [congruence |]. constructor; [eauto | exact Hall].
Qed.

(** ** Channels *)

(** Averaging the channels is all the wrapper does with them: a
    multi-channel array scores as the array of its frame means does, and a
    multi-channel file as that array at the rate of the file. *)
Theorem multichannel_as_mono frames sample_rate s :
  dnsmos host (Array (Multi frames)) sample_rate s
  = dnsmos host (Array (Mono (np_mean_axis1 frames))) sample_rate s
  /\ forall audio_path sr,
       fs s !! audio_path = Some (Wav (Multi frames) sr) ->
       dnsmos host (Path audio_path) sample_rate s
       = dnsmos host (Array (Mono (np_mean_axis1 frames))) sr s.
Proof.
  split; [reflexivity |].
  intros audio_path sr Hfile. unfold dnsmos.
  destruct (dnsmos_wrapper s) as [wrapper |]; [| reflexivity].
  rewrite file_eq, from_array_eq. unfold try_except.
  rewrite (body_decoded host wrapper (Path audio_path) 16000 s (Multi frames) sr).
  - reflexivity.
  - simpl. rewrite Hfile. reflexivity.
Qed.

End Calls.

(** ** Runs on the test doubles *)

Import Stub.

Lemma other_files_untouched_witness :
  fs (snd (score raising_host wrapper (Path "speech.wav") 16000 (loaded raising_host)))
    !! "speech.wav"
  = Some (Wav mono 16000).
Proof.
  rewrite (other_files_untouched raising_host wrapper (Path "speech.wav") 16000
             (loaded raising_host) "speech.wav").
  - vm_compute. reflexivity.
  - intros tmp Htmp. vm_compute in Htmp. injection Htmp as <-. discriminate.
Defined.

Lemma successful_call_restores_disk_witness :
  fs (snd (score scoring_host wrapper (Array stereo) 32000 (loaded scoring_host)))
  = fs (loaded scoring_host).
Proof.
  apply (successful_call_restores_disk scoring_host wrapper (Array stereo) 32000
           (loaded scoring_host) (scores_dict (7 # 2) (4 # 1) (19 # 5))).
  - vm_compute. reflexivity.
  - intros tmp Htmp. vm_compute in Htmp. injection Htmp as <-.
    vm_compute. reflexivity.
Defined.

Lemma temporary_file_fate_witness :
  is_Some (fs (snd (score full_disk_host wrapper (Array mono) 16000
                           (loaded full_disk_host))) !! tmp_name).
Proof.
  apply (temporary_file_fate full_disk_host wrapper (Array mono) 16000
           (loaded full_disk_host) mono 16000 (to_mono mono) tmp_name).
  - reflexivity.
  - reflexivity.
  - reflexivity.
  - vm_compute. reflexivity.
  - left. vm_compute. eexists. reflexivity.
Defined.

Lemma early_failure_is_clean_witness :
  fst (score scoring_host wrapper (Path "missing.wav") 16000 (loaded scoring_host))
  = Ok None
  /\ fs (snd (score scoring_host wrapper (Path "missing.wav") 16000
                    (loaded scoring_host)))
     = fs (loaded scoring_host)
  /\ scorer_calls
       (since (loaded scoring_host)
              (snd (score scoring_host wrapper (Path "missing.wav") 16000
                          (loaded scoring_host))))
     = [].
Proof.
  apply (early_failure_is_clean scoring_host wrapper (Path "missing.wav") 16000
           (loaded scoring_host)).
  left. vm_compute. reflexivity.
Defined.


Lemma import_failures_witness :
  fst (import_module no_dnsmos_host (fresh disk))
  = Raise (Exception
             ("Could not import DNSMOS. Make sure git submodules are initialized: "
              +:+ "No module named 'dnsmos_local'"))
  /\ import_module no_models_host (fresh disk)
     = (Raise (Exception "Load model sig_bak_ovr.onnx failed"), fresh disk).
Proof.
  split.
  - destruct (import_failures no_dnsmos_host disk) as (Himport & _).
    rewrite (Himport "No module named 'dnsmos_local'"); reflexivity.
  - destruct (import_failures no_models_host disk) as (_ & Hmodels).
    apply Hmodels; reflexivity.
Defined.

Lemma calls_never_raise_witness :
  length (fst (run_calls raising_host three_calls (loaded raising_host))) = 3%nat
  /\ Forall (fun r => exists result, r = Ok result)
            (fst (run_calls raising_host three_calls (loaded raising_host))).
Proof.
  apply (calls_never_raise raising_host disk (loaded raising_host) three_calls).
  vm_compute. reflexivity.
Defined.

Lemma multichannel_as_mono_witness :
  dnsmos scoring_host (Path "duet.wav") 16000 stereo_loaded
  = dnsmos scoring_host (Array (Mono (to_mono stereo))) 44100 stereo_loaded.
Proof.
  destruct (multichannel_as_mono scoring_host
              [[1 # 2; 1 # 4]; [0 # 1; 1 # 1]; [-1 # 2; 1 # 2]; [3 # 4; 1 # 4]]%Q
              16000 stereo_loaded) as (_ & Hfile).
  apply (Hfile "duet.wav" 44100). vm_compute. reflexivity.
Defined.

End WrapperMore.
